(** * Hatta-Labo: the discharge-log analyser [ohm_law_analyzer_jp.py]

    A shallow embedding of the two functions of the script,
    [parse_value_from_filename] and [analyze_experiment_data], and the
    properties of the batch pipeline that its specification states.

    Conventions of the embedding.
    - A Python [str] is a [list ascii]: a sequence of code points below 256,
      on which the class [\d] of [re] is exactly ['0'..'9'].
    - A compiled [re] pattern is a list of instructions ([regex]); the three
      patterns of the script are written out as [pat_pressure],
      [pat_resistance] and [time_format_regex].
    - A [float] is a binary64 number ([PrimFloat]), as in NumPy.
    - pandas, glob, the file system and matplotlib are the script's
      collaborators: what they answer is read from an [Env] record, what the
      script asks them to do is recorded as a trace of [event]s.  A call
      into pandas or matplotlib returns, or raises the exception that the
      [Env] holds for it; inside the [try] statement the exception is
      caught, in steps 5 to 7 it ends the run. *)

From Stdlib Require Import ZArith List Bool Ascii String Lia.
From Stdlib Require Import Permutation Sorted DecimalString DecimalPos DecimalZ.
From Stdlib Require Import PrimFloat SpecFloat FloatOps.
Import ListNotations.

(* 0.0019999 stands for the binary64 number nearest to it. *)
Set Warnings "-inexact-float".

Local Open Scope Z_scope.

(** ** Strings *)

Definition str := list ascii.

(** The string literal ["..."] of the script. *)
Definition lit (s : string) : str := list_ascii_of_string s.

Definition str_eqb (a b : str) : bool :=
  if list_eq_dec ascii_dec a b then true else false.

Definition is_digit (a : ascii) : bool :=
  ((48 <=? nat_of_ascii a) && (nat_of_ascii a <=? 57))%nat.

Definition is_sep (a : ascii) : bool := Ascii.eqb a "/"%char.

(** [os.path.basename]: what follows the last ['/']. *)
Fixpoint os_path_basename (p : str) : str :=
  match p with
  | [] => []
  | a :: p' =>
      if existsb is_sep p' then os_path_basename p'
      else if is_sep a then p' else p
  end.

(** [os.path.join(a, b)] for a relative [b]. *)
Definition os_path_join (a b : str) : str :=
  match a with
  | [] => b
  | _ => if is_sep (last a "/"%char) then a ++ b else a ++ "/"%char :: b
  end.

(** ** Exceptions and results *)

Inductive exn : Type :=
| IndexError                 (* [match.group(i)] beyond the pattern's groups *)
| TypeError                  (* [int(None)] *)
| ValueError                 (* [int] of a string that is not a number *)
| KeyError (column : nat)    (* [df[c]] on a table without column [c] *)
| LibraryError (msg : str).  (* raised inside pandas: I/O, parser, encoding *)

Inductive result (A : Type) : Type :=
| Ok (a : A)
| Raise (e : exn).
Arguments Ok {A} a.
Arguments Raise {A} e.

Definition bind {A B} (r : result A) (k : A -> result B) : result B :=
  match r with
  | Ok a => k a
  | Raise e => Raise e
  end.

Notation "x <- r ;; k" := (bind r (fun x => k))
  (at level 61, r at next level, right associativity).

(** ** The fragment of [re] the script uses *)

Inductive cclass : Type :=
| CLit (c : ascii)            (* a literal character *)
| CDigit                      (* [\d] *)
| CSet (cs : list ascii).     (* [[kM]] *)

Inductive instr : Type :=
| IChar (c : cclass)          (* one character of the class *)
| IPlus (c : cclass)          (* [c+], greedy *)
| IRep (n : nat) (c : cclass) (* [c{n}] *)
| IOpen (g : nat)             (* the opening parenthesis of group [g] *)
| IClose (g : nat)            (* its closing parenthesis *)
| IBol                        (* [^] *)
| IEol.                       (* [$] *)

Definition regex := list instr.

Definition in_class (c : cclass) (a : ascii) : bool :=
  match c with
  | CLit b => Ascii.eqb a b
  | CDigit => is_digit a
  | CSet cs => existsb (Ascii.eqb a) cs
  end.

(** The state of one match attempt: the position in the subject, the groups
    that are open (with the text read since, newest character first) and the
    groups that are closed. *)
Record mstate : Type := MState {
  pos : nat;
  opened : list (nat * str);
  groups : list (nat * str)
}.

Definition init_state (start : nat) : mstate := MState start [] [].

Definition consume (a : ascii) (st : mstate) : mstate :=
  MState (S (pos st))
         (map (fun o => (fst o, a :: snd o)) (opened st))
         (groups st).

Definition open_group (g : nat) (st : mstate) : mstate :=
  MState (pos st) ((g, []) :: opened st) (groups st).

Fixpoint assoc_nat {A} (g : nat) (l : list (nat * A)) : option A :=
  match l with
  | [] => None
  | (h, x) :: l' => if Nat.eqb h g then Some x else assoc_nat g l'
  end.

Definition close_group (g : nat) (st : mstate) : mstate :=
  match assoc_nat g (opened st) with
  | Some acc =>
      MState (pos st)
             (filter (fun o => negb (Nat.eqb (fst o) g)) (opened st))
             ((g, rev acc) :: groups st)
  | None => st
  end.

(** [c{n}]: exactly [n] characters of the class. *)
Fixpoint take_class (n : nat) (c : cclass) (s : str) (st : mstate)
  : option (str * mstate) :=
  match n with
  | O => Some (s, st)
  | S n' =>
      match s with
      | a :: s' =>
          if in_class c a then take_class n' c s' (consume a st) else None
      | [] => None
      end
  end.

(** The greedy loop of [c+] after its first character: one more character
    of the class is tried first, the rest of the pattern [k] after it. *)
Fixpoint greedy (k : str -> mstate -> option mstate) (c : cclass)
                (s : str) (st : mstate) : option mstate :=
  match s with
  | a :: s' =>
      if in_class c a then
        match greedy k c s' (consume a st) with
        | Some m => Some m
        | None => k s st
        end
      else k s st
  | [] => k s st
  end.

(** One attempt of the backtracking matcher at the head of [s]. *)
Fixpoint run (p : regex) (s : str) (st : mstate) : option mstate :=
  match p with
  | [] => Some st
  | IChar c :: p' =>
      match s with
      | a :: s' => if in_class c a then run p' s' (consume a st) else None
      | [] => None
      end
  | IPlus c :: p' =>
      match s with
      | a :: s' =>
          if in_class c a then greedy (run p') c s' (consume a st) else None
      | [] => None
      end
  | IRep n c :: p' =>
      match take_class n c s st with
      | Some (s', st') => run p' s' st'
      | None => None
      end
  | IOpen g :: p' => run p' s (open_group g st)
  | IClose g :: p' => run p' s (close_group g st)
  | IBol :: p' => if Nat.eqb (pos st) 0 then run p' s st else None
  | IEol :: p' =>
      (* without re.MULTILINE: at the end, or before a newline that ends
         the subject *)
      match s with
      | [] => run p' s st
      | [a] => if Ascii.eqb a "010"%char then run p' s st else None
      | _ => None
      end
  end.

(** [re.search]: the first position, from the left, where an attempt
    succeeds. *)
Fixpoint search_from (p : regex) (s : str) (start : nat) : option mstate :=
  match run p s (init_state start) with
  | Some m => Some m
  | None =>
      match s with
      | [] => None
      | _ :: s' => search_from p s' (S start)
      end
  end.

Definition re_search (p : regex) (s : str) : option mstate :=
  search_from p s 0.

(** [re.match]: one attempt, at position 0. *)
Definition re_match (p : regex) (s : str) : option mstate :=
  run p s (init_state 0).

(** [len(match.groups())]: the number of groups of the pattern. *)
Definition ngroups (p : regex) : nat :=
  List.length (filter (fun i => match i with IOpen _ => true | _ => false end) p).

(** [match.group(g)] for [g >= 1]: [None] for a group that took no part. *)
Definition group (p : regex) (m : mstate) (g : nat) : result (option str) :=
  if (g <=? ngroups p)%nat then Ok (assoc_nat g (groups m)) else Raise IndexError.

(** The patterns of the script. *)

(** [r'(\d+)Pa'] *)
Definition pat_pressure : regex :=
  [IOpen 1; IPlus CDigit; IClose 1; IChar (CLit "P"); IChar (CLit "a")].

(** [r'(\d+)([kM])ohm'] *)
Definition pat_resistance : regex :=
  [IOpen 1; IPlus CDigit; IClose 1;
   IOpen 2; IChar (CSet ["k"; "M"]%char); IClose 2;
   IChar (CLit "o"); IChar (CLit "h"); IChar (CLit "m")].

(** [r'^\d{2}:\d{2}:\d{2}$'] *)
Definition time_format_regex : regex :=
  [IBol; IRep 2 CDigit; IChar (CLit ":"); IRep 2 CDigit; IChar (CLit ":");
   IRep 2 CDigit; IEol].

(** ** [int] and [dict] *)

Definition digit_val (a : ascii) : Z := Z.of_nat (nat_of_ascii a) - 48.

Definition int_digits (s : str) : Z :=
  fold_left (fun acc a => 10 * acc + digit_val a) s 0.

(** [int(v)] on what [match.group] returns.  The model covers the decimal
    digit strings, which is what a [\d+] group holds; [None] is a TypeError
    and any other string is taken as a ValueError. *)
Definition py_int (v : option str) : result Z :=
  match v with
  | None => Raise TypeError
  | Some s =>
      match s with
      | [] => Raise ValueError
      | _ => if forallb is_digit s then Ok (int_digits s) else Raise ValueError
      end
  end.

(** A [dict] with string keys, as the literal lists its items. *)
Definition dict := list (str * Z).

Fixpoint dict_get (d : dict) (k : str) : option Z :=
  match d with
  | [] => None
  | (k', v) :: d' =>
      match dict_get d' k with
      | Some v' => Some v'          (* a later item of the literal wins *)
      | None => if str_eqb k' k then Some v else None
      end
  end.

(** [{}] and [{'k': 1000, 'M': 1000000}] *)
Definition no_units : dict := [].
Definition ohm_units : dict := [(lit "k", 1000); (lit "M", 1000000)].

(** ** [parse_value_from_filename] *)

Definition parse_value_from_filename
    (filename : str) (pattern : regex) (unit_map : dict) : result (option Z) :=
  let basename := os_path_basename filename in
  match re_search pattern basename with
  | None => Ok None
  | Some m =>
      value_str <- group pattern m 1 ;;
      value <- py_int value_str ;;
      if (1 <? ngroups pattern)%nat then
        unit <- group pattern m 2 ;;
        match unit with
        | Some u =>
            match dict_get unit_map u with
            | Some factor => Ok (Some (value * factor))
            | None => Ok (Some value)
            end
        | None => Ok (Some value)
        end
      else Ok (Some value)
  end.

(** ** What the two filename patterns match, written directly

    [digits_of s] is the run of digits [s] starts with, [after_digits s] the
    rest.  [resistance_here] and [pressure_here] read off what one attempt
    of [pat_resistance] and [pat_pressure] captures at the head of a string;
    the lemmas below relate them to [run]. *)

Fixpoint digits_of (s : str) : str :=
  match s with
  | a :: s' => if is_digit a then a :: digits_of s' else []
  | [] => []
  end.

Fixpoint after_digits (s : str) : str :=
  match s with
  | a :: s' => if is_digit a then after_digits s' else s
  | [] => []
  end.

Definition consume_all (l : str) (st : mstate) : mstate :=
  fold_left (fun st a => consume a st) l st.

Definition resistance_here (s : str) : option (str * ascii) :=
  match digits_of s, after_digits s with
  | a :: d, u :: o :: h :: m :: _ =>
      if in_class (CSet ["k"; "M"]%char) u && Ascii.eqb o "o" && Ascii.eqb h "h"
         && Ascii.eqb m "m"
      then Some (a :: d, u) else None
  | _, _ => None
  end.

Fixpoint first_resistance (s : str) : option (str * ascii) :=
  match resistance_here s with
  | Some r => Some r
  | None =>
      match s with
      | [] => None
      | _ :: s' => first_resistance s'
      end
  end.

Definition pressure_here (s : str) : option str :=
  match digits_of s, after_digits s with
  | a :: d, p :: q :: _ =>
      if Ascii.eqb p "P" && Ascii.eqb q "a" then Some (a :: d) else None
  | _, _ => None
  end.

Fixpoint first_pressure (s : str) : option str :=
  match pressure_here s with
  | Some r => Some r
  | None =>
      match s with
      | [] => None
      | _ :: s' => first_pressure s'
      end
  end.

(** The groups of a match of [pat_resistance]: the digits and the unit. *)
Definition resistance_groups (r : str * ascii) : list (nat * str) :=
  [(2%nat, [snd r]); (1%nat, fst r)].

(** The last character of a string, if it has one, is not a digit. *)
Definition no_digit_at_end (s : str) : Prop :=
  forall s' a, s = s' ++ [a] -> is_digit a = false.

(** ** More of [str] *)

Fixpoint starts_with (pre s : str) : bool :=
  match pre, s with
  | [], _ => true
  | a :: pre', b :: s' => Ascii.eqb a b && starts_with pre' s'
  | _ :: _, [] => false
  end.

(** [s.replace(old, new)] for a non-empty [old]: every occurrence, from the
    left, without overlap.  [skip] counts the characters of an occurrence
    still to be passed over. *)
Fixpoint replace_from (old new : str) (skip : nat) (s : str) : str :=
  match s with
  | [] => []
  | a :: s' =>
      match skip with
      | S k => replace_from old new k s'
      | O =>
          if starts_with old s
          then new ++ replace_from old new (List.length old - 1) s'
          else a :: replace_from old new 0 s'
      end
  end.

Definition str_replace (s old new : str) : str := replace_from old new 0 s.

(** [f'{n}'] for an [int]. *)
Definition str_of_Z (n : Z) : str :=
  lit (DecimalString.NilZero.string_of_int (Z.to_int n)).

(** ** Numbers *)

Local Open Scope float_scope.

(** The [float] a Python [int] becomes in an operation with a float64
    column: the nearest binary64 number. *)
Definition float_of_Z (n : Z) : float :=
  SF2Prim (binary_normalize prec emax n 0 false).

Definition is_finite (x : float) : bool :=
  negb (is_nan x) && negb (is_infinity x).

Definition resistance_ch1 : Z := 10000000.

(** Step 3 of the script on one row: CH2 current minus CH1 current. *)
Definition final_current (v_ch1 v_ch2 : float) (resistance_ch2 : Z) : float :=
  let current_ch2 := v_ch2 / float_of_Z resistance_ch2 in
  let current_ch1 := v_ch1 / float_of_Z resistance_ch1 in
  current_ch2 - current_ch1.

Local Close Scope float_scope.

(** ** Tables

    A cell of a table read with [dtype=str] is a string, or the float NaN
    where the field is missing; after [pd.to_numeric] a cell of a voltage
    column is a float.  A table is kept by rows. *)

Inductive value : Type :=
| VStr (s : str)
| VNum (x : float).

Definition row := list value.

Record DataFrame : Type := MkDF {
  ncols : nat;
  rows : list row
}.

Definition NaN : value := VNum PrimFloat.nan.

(** The cell of column [c] in a row (rows shorter than the table are filled
    with NaN, as [read_csv] fills them). *)
Definition cell (c : nat) (r : row) : value := nth c r NaN.

Fixpoint set_cell (c : nat) (v : value) (r : row) : row :=
  match c, r with
  | O, _ :: r' => v :: r'
  | S c', x :: r' => x :: set_cell c' v r'
  | _, [] => []
  end.

Fixpoint zip_with {A B C} (f : A -> B -> C) (l : list A) (l' : list B) : list C :=
  match l, l' with
  | a :: t, b :: t' => f a b :: zip_with f t t'
  | _, _ => []
  end.

(** [df[c]]: the column labelled [c], a KeyError if there is none. *)
Definition getitem (df : DataFrame) (c : nat) : result (list value) :=
  if (c <? ncols df)%nat then Ok (map (cell c) (rows df)) else Raise (KeyError c).

(** [df[c] = series] for a column that exists. *)
Definition setitem (df : DataFrame) (c : nat) (series : list value) : DataFrame :=
  MkDF (ncols df) (zip_with (fun r v => set_cell c v r) (rows df) series).

(** [df[mask]]: the rows where the boolean series is true. *)
Fixpoint boolean_mask (rs : list row) (mask : list bool) : list row :=
  match rs, mask with
  | r :: rs', b :: mask' =>
      if b then r :: boolean_mask rs' mask' else boolean_mask rs' mask'
  | _, _ => []
  end.

(** [Series.str.match(pattern, na=False)] on one cell: [re.match] on a
    string, false on a missing value. *)
Definition str_match (pattern : regex) (v : value) : bool :=
  match v with
  | VStr s => match re_match pattern s with Some _ => true | None => false end
  | VNum _ => false
  end.

Definition isna (v : value) : bool :=
  match v with
  | VNum x => PrimFloat.is_nan x
  | VStr _ => false
  end.

(** [df.dropna(subset=cols)] *)
Definition dropna (subset : list nat) (df : DataFrame) : DataFrame :=
  MkDF (ncols df)
       (filter (fun r => negb (existsb (fun c => isna (cell c r)) subset)) (rows df)).

(** The number held by a cell of a numeric column. *)
Definition as_float (v : value) : float :=
  match v with
  | VNum x => x
  | VStr _ => PrimFloat.nan
  end.

(** ** The collaborators *)

(** One row of the table collected for the summaries and the plot. *)
Record ProcessedRow : Type := MkProcessed {
  voltage_ch1_V : float;
  final_current_A : float;
  resistance_ohm : Z;
  pressure_Pa : Z
}.

(** The calls into pandas and matplotlib that steps 5 to 7 make outside
    every [try] statement, apart from [to_csv]. *)
Inductive call : Type :=
(** [pd.concat(all_processed_data, ignore_index=True)] *)
| PdConcat (all_processed_data : list (list ProcessedRow))
(** [plt.style.use(style)] *)
| PltStyleUse (style : str)
(** [plt.subplots(figsize=(12, 8))] *)
| PltSubplots
(** [ax.plot(subset['voltage_ch1_V'], subset['final_current_A'], ...)] for
    the resistance [res] *)
| AxPlot (res : Z) (points : list (float * float))
(** [ax.set_title] ... [ax.grid], lines 181 to 186 *)
| AxSetUp
(** [plt.savefig(path, dpi=300)] *)
| PltSavefig (path : str).

Record Env : Type := MkEnv {
  (** [os.path.isdir] *)
  isdir : str -> bool;
  (** [glob.glob] *)
  glob : str -> list str;
  (** [pd.read_csv(path, header=None, dtype=str)] *)
  read_csv : str -> result DataFrame;
  (** [pd.to_numeric(..., errors='coerce')] on one string: the number it
      reads, NaN if it reads none *)
  to_numeric : str -> float;
  (** the exception [DataFrame.to_csv(path, ...)] raises, if it raises *)
  to_csv : str -> option exn;
  (** the exception a call of steps 5 to 7 raises, if it raises *)
  raises : call -> option exn
}.

(** What the script prints and writes. *)
Inductive event : Type :=
| PrintFolderNotFound (folder : str)
| PrintNoFiles (pattern : str)
| PrintFound (n : nat)
| PrintTarget (pressure : Z)
| PrintRule
| PrintProcessing (filepath : str)
| PrintWarnResistance (filepath : str)
| PrintWarnPressure (filepath : str)
| PrintFiltered (before after : nat)
| PrintSaved (output_filepath : str)
| PrintError (filepath : str) (e : exn)
| PrintNoData (target : option Z)
| PrintAggregating
| PrintSummarySaved (summary_filepath : str)
| PrintPlotting
| PrintPlotSaved (plot_filepath : str)
(** [df.to_csv(path, header=..., index=...)]: [header] is the header row
    written, if one is; [index] tells whether the index column is. *)
| ToCsv (path : str) (header : option (list str)) (index : bool) (table : list row)
(** [plt.savefig(path, dpi=300)] of the figure with one series per
    resistance. *)
| SaveFig (path : str) (series : list (Z * list (float * float))).

(** A computation of the script: the events it has produced, and its value
    or the exception that stopped it. *)
Definition action (A : Type) : Type := (list event * result A)%type.

Definition ret {A} (a : A) : action A := ([], Ok a).
Definition emit (e : event) : action unit := ([e], Ok tt).
Definition lift {A} (r : result A) : action A := ([], r).

Definition abind {A B} (m : action A) (k : A -> action B) : action B :=
  match m with
  | (ev, Ok a) => let (ev', r) := k a in (ev ++ ev', r)
  | (ev, Raise e) => (ev, Raise e)
  end.

Notation "x <-- m ;;; k" := (abind m (fun x => k))
  (at level 61, m at next level, right associativity).
Notation "m ;;; k" := (abind m (fun _ => k))
  (at level 61, right associativity).

(** [try: body except Exception as e: handler(e)] *)
Definition try_except {A} (body : action A) (handler : exn -> action A) : action A :=
  match body with
  | (ev, Ok a) => (ev, Ok a)
  | (ev, Raise e) => let (ev', r) := handler e in (ev ++ ev', r)
  end.

Definition write_csv (env : Env) (path : str) (header : option (list str))
    (index : bool) (table : list row) : action unit :=
  match to_csv env path with
  | Some e => lift (Raise e)
  | None => emit (ToCsv path header index table)
  end.

(** A call that leaves no file: it returns, or raises. *)
Definition library (env : Env) (c : call) : action unit :=
  match raises env c with
  | Some e => lift (Raise e)
  | None => ret tt
  end.

Definition savefig (env : Env) (path : str)
    (series : list (Z * list (float * float))) : action unit :=
  match raises env (PltSavefig path) with
  | Some e => lift (Raise e)
  | None => emit (SaveFig path series)
  end.

(** ** [analyze_experiment_data] *)

(** The two settings at the head of the function. *)
Record Config : Type := MkConfig {
  TARGET_FOLDER : str;
  TARGET_PRESSURE : option Z
}.

Definition COL_V_CH1 : nat := 1.
Definition COL_V_CH2 : nat := 5.

Definition to_numeric_value (env : Env) (v : value) : value :=
  match v with
  | VStr s => VNum (to_numeric env s)
  | VNum x => VNum x
  end.

(** The body of the [try] statement, for one file whose resistance and
    pressure were read from its name. *)
Definition try_block (env : Env) (filepath : str) (resistance_ch2 pressure : Z)
  : action (list ProcessedRow) :=
  df <-- lift (read_csv env filepath) ;;;
  first <-- lift (getitem df 0) ;;;
  let original_rows := List.length (rows df) in
  let df := MkDF (ncols df)
                 (boolean_mask (rows df) (map (str_match time_format_regex) first)) in
  emit (PrintFiltered original_rows (List.length (rows df))) ;;;
  ch1 <-- lift (getitem df COL_V_CH1) ;;;
  let df := setitem df COL_V_CH1 (map (to_numeric_value env) ch1) in
  ch2 <-- lift (getitem df COL_V_CH2) ;;;
  let df := setitem df COL_V_CH2 (map (to_numeric_value env) ch2) in
  let df := dropna [COL_V_CH1; COL_V_CH2] df in
  v_ch2 <-- lift (getitem df COL_V_CH2) ;;;
  let current_ch2 :=
    map (fun v => PrimFloat.div (as_float v) (float_of_Z resistance_ch2)) v_ch2 in
  v_ch1 <-- lift (getitem df COL_V_CH1) ;;;
  let current_ch1 :=
    map (fun v => PrimFloat.div (as_float v) (float_of_Z resistance_ch1)) v_ch1 in
  let final := zip_with PrimFloat.sub current_ch2 current_ch1 in
  let df_to_save := zip_with (fun r x => r ++ [VNum x]) (rows df) final in
  let output_filepath :=
    str_replace filepath (lit "_hoden.csv") (lit "_processed.csv") in
  write_csv env output_filepath None false df_to_save ;;;
  emit (PrintSaved output_filepath) ;;;
  ret (zip_with (fun v c => MkProcessed (as_float v) c resistance_ch2 pressure)
                v_ch1 final).

(** [TARGET_PRESSURE is not None and pressure != TARGET_PRESSURE] *)
Definition not_target (target pressure : option Z) : bool :=
  match target with
  | None => false
  | Some t =>
      match pressure with
      | Some p => negb (p =? t)
      | None => true
      end
  end.

(** One turn of the loop over [csv_files]; the value is
    [all_processed_data] after the turn. *)
Definition loop_body (env : Env) (cfg : Config) (filepath : str)
    (all_processed_data : list (list ProcessedRow))
  : action (list (list ProcessedRow)) :=
  pressure <-- lift (parse_value_from_filename filepath pat_pressure no_units) ;;;
  if not_target (TARGET_PRESSURE cfg) pressure then ret all_processed_data
  else
    emit (PrintProcessing filepath) ;;;
    resistance_ch2 <--
      lift (parse_value_from_filename filepath pat_resistance ohm_units) ;;;
    match resistance_ch2 with
    | None => emit (PrintWarnResistance filepath) ;;; ret all_processed_data
    | Some r =>
        match pressure with
        | None => emit (PrintWarnPressure filepath) ;;; ret all_processed_data
        | Some p =>
            try_except
              (processed_df <-- try_block env filepath r p ;;;
               ret (all_processed_data ++ [processed_df]))
              (fun e => emit (PrintError filepath e) ;;; ret all_processed_data)
        end
    end.

Fixpoint for_files (env : Env) (cfg : Config) (csv_files : list str)
    (all_processed_data : list (list ProcessedRow))
  : action (list (list ProcessedRow)) :=
  match csv_files with
  | [] => ret all_processed_data
  | filepath :: rest =>
      all_processed_data <-- loop_body env cfg filepath all_processed_data ;;;
      for_files env cfg rest all_processed_data
  end.

(** Ascending, without repetition: the keys of [groupby] and
    [sorted(... .unique())]. *)
Fixpoint insert_unique (x : Z) (l : list Z) : list Z :=
  match l with
  | [] => [x]
  | y :: l' =>
      if x <? y then x :: l
      else if x =? y then l
      else y :: insert_unique x l'
  end.

Definition sorted_unique (l : list Z) : list Z := fold_right insert_unique [] l.

(** [final_df.groupby('pressure_Pa')] *)
Definition groupby_pressure (final_df : list ProcessedRow)
  : list (Z * list ProcessedRow) :=
  map (fun k => (k, filter (fun r => pressure_Pa r =? k) final_df))
      (sorted_unique (map pressure_Pa final_df)).

Definition summary_header : list str :=
  [lit "voltage_ch1_V"; lit "final_current_A"].

(** [group_df[['voltage_ch1_V', 'final_current_A']]] *)
Definition summary_row (r : ProcessedRow) : row :=
  [VNum (voltage_ch1_V r); VNum (final_current_A r)].

Definition summary_filepath (cfg : Config) (pressure_val : Z) : str :=
  os_path_join (TARGET_FOLDER cfg)
               (lit "summary_iv_" ++ str_of_Z pressure_val ++ lit "Pa.csv").

Fixpoint write_summaries (env : Env) (cfg : Config)
    (grouped : list (Z * list ProcessedRow)) : action unit :=
  match grouped with
  | [] => ret tt
  | (pressure_val, group_df) :: rest =>
      write_csv env (summary_filepath cfg pressure_val) (Some summary_header)
                false (map summary_row group_df) ;;;
      emit (PrintSummarySaved (summary_filepath cfg pressure_val)) ;;;
      write_summaries env cfg rest
  end.

Definition plot_filepath (cfg : Config) : str :=
  os_path_join (TARGET_FOLDER cfg)
    match TARGET_PRESSURE cfg with
    | Some t =>
        lit "current_voltage_characteristics_plot_" ++ str_of_Z t ++ lit "Pa.png"
    | None => lit "current_voltage_characteristics_plot_final.png"
    end.

(** The series of the plot: for each resistance, in ascending order, the
    points of its rows. *)
Definition plot_series (final_df : list ProcessedRow)
  : list (Z * list (float * float)) :=
  let unique_resistances := sorted_unique (map resistance_ohm final_df) in
  map (fun res =>
         (res, map (fun r => (voltage_ch1_V r, final_current_A r))
                   (filter (fun r => resistance_ohm r =? res) final_df)))
      unique_resistances.

(** [for res in unique_resistances: ... ax.plot(...)] *)
Fixpoint plot_each (env : Env) (series : list (Z * list (float * float)))
  : action unit :=
  match series with
  | [] => ret tt
  | (res, points) :: rest =>
      library env (AxPlot res points) ;;;
      plot_each env rest
  end.

Definition plot_style : str := lit "seaborn-v0_8-whitegrid".

(** Step 7, the plot of the concatenated table. *)
Definition plot_characteristics (env : Env) (cfg : Config)
    (final_df : list ProcessedRow) : action unit :=
  emit PrintPlotting ;;;
  library env (PltStyleUse plot_style) ;;;
  library env PltSubplots ;;;
  plot_each env (plot_series final_df) ;;;
  library env AxSetUp ;;;
  savefig env (plot_filepath cfg) (plot_series final_df) ;;;
  emit (PrintPlotSaved (plot_filepath cfg)).

(** The calls of step 7, in the order in which it makes them. *)
Definition plot_calls (cfg : Config) (final_df : list ProcessedRow) : list call :=
  [PltStyleUse plot_style; PltSubplots]
  ++ map (fun s => AxPlot (fst s) (snd s)) (plot_series final_df)
  ++ [AxSetUp; PltSavefig (plot_filepath cfg)].

(** Steps 5 to 7, once [all_processed_data] is known not to be empty. *)
Definition aggregate_and_plot (env : Env) (cfg : Config)
    (all_processed_data : list (list ProcessedRow)) : action unit :=
  library env (PdConcat all_processed_data) ;;;
  let final_df := List.concat all_processed_data in
  emit PrintAggregating ;;;
  write_summaries env cfg (groupby_pressure final_df) ;;;
  plot_characteristics env cfg final_df.

(** Steps 1 to 7 for the files [glob] finds under [file_pattern]. *)
Definition analyze_files (env : Env) (cfg : Config) (file_pattern : str)
  : action unit :=
  let csv_files := glob env file_pattern in
  match csv_files with
  | [] => emit (PrintNoFiles (os_path_basename file_pattern))
  | _ =>
      emit (PrintFound (List.length csv_files)) ;;;
      match TARGET_PRESSURE cfg with
      | Some t => emit (PrintTarget t)
      | None => ret tt
      end ;;;
      emit PrintRule ;;;
      all_processed_data <-- for_files env cfg csv_files [] ;;;
      match all_processed_data with
      | [] => emit (PrintNoData (TARGET_PRESSURE cfg))
      | _ => aggregate_and_plot env cfg all_processed_data
      end
  end.

Definition analyze_experiment_data (env : Env) (cfg : Config) : action unit :=
  match TARGET_FOLDER cfg with
  | [] => analyze_files env cfg (lit "*_hoden.csv")
  | _ =>
      if negb (isdir env (TARGET_FOLDER cfg))
      then emit (PrintFolderNotFound (TARGET_FOLDER cfg))
      else analyze_files env cfg
             (os_path_join (TARGET_FOLDER cfg) (lit "*_hoden.csv"))
  end.

(** ** The [try] block, row by row

    The script works on whole columns; the definitions below say what that
    does to one row.  [try_block_eq] proves that [try_block] computes
    them. *)

(** The row passes the timestamp filter. *)
Definition timestamped (r : row) : bool :=
  str_match time_format_regex (cell 0 r).

(** The row after [pd.to_numeric] on column [c]. *)
Definition convert (env : Env) (c : nat) (r : row) : row :=
  set_cell c (to_numeric_value env (cell c r)) r.

(** The row passes [dropna]. *)
Definition complete (r : row) : bool :=
  negb (existsb (fun c => isna (cell c r)) [COL_V_CH1; COL_V_CH2]).

(** The rows of [df] after cleaning. *)
Definition cleaned (env : Env) (df : DataFrame) : list row :=
  filter complete
    (map (convert env COL_V_CH2)
       (map (convert env COL_V_CH1) (filter timestamped (rows df)))).

Definition row_current (resistance_ch2 : Z) (r : row) : float :=
  final_current (as_float (cell COL_V_CH1 r)) (as_float (cell COL_V_CH2 r))
                resistance_ch2.

Definition output_filepath (filepath : str) : str :=
  str_replace filepath (lit "_hoden.csv") (lit "_processed.csv").

Definition saved_row (resistance_ch2 : Z) (r : row) : row :=
  r ++ [VNum (row_current resistance_ch2 r)].

Definition processed_row (resistance_ch2 pressure : Z) (r : row) : ProcessedRow :=
  MkProcessed (as_float (cell COL_V_CH1 r)) (row_current resistance_ch2 r)
              resistance_ch2 pressure.

(** Two digits, a colon, two digits, a colon, two digits. *)
Definition is_hms (s : str) : bool :=
  match s with
  | [h1; h2; c1; m1; m2; c2; s1; s2] =>
      is_digit h1 && is_digit h2 && Ascii.eqb c1 ":"
      && is_digit m1 && is_digit m2 && Ascii.eqb c2 ":"
      && is_digit s1 && is_digit s2
  | _ => false
  end.

(** The same, followed by one newline. *)
Definition is_hms_newline (s : str) : bool :=
  match s with
  | [h1; h2; c1; m1; m2; c2; s1; s2; nl] =>
      is_hms [h1; h2; c1; m1; m2; c2; s1; s2] && Ascii.eqb nl "010"
  | _ => false
  end.

(** The row of the source comes through the cleaning. *)
Definition survives (env : Env) (r : row) : bool :=
  timestamped r
  && complete (convert env COL_V_CH2 (convert env COL_V_CH1 r)).

(** The cell fails the numeric coercion: it is missing, or it is a string
    in which [pd.to_numeric(errors='coerce')] reads no number. *)
Definition coercion_fails (env : Env) (v : value) : bool :=
  match v with
  | VStr s => PrimFloat.is_nan (to_numeric env s)
  | VNum x => PrimFloat.is_nan x
  end.

(** ** The file behind a table

    [pd.read_csv(path, header=None, dtype=str)] leaves the NA handling of
    pandas switched on ([na_filter], [keep_default_na]): a field that is one
    of the default markers, [STR_NA_VALUES] of pandas 2, is read as a
    missing value, the float NaN, and every other field as the string it
    holds.  [to_csv] writes a missing value as [na_rep], the empty field, a
    string as it is, and a number in the float format of pandas.  Fields
    are taken as the CSV reader and writer see them, without the quotes a
    field may need in the file. *)

Definition STR_NA_VALUES : list str :=
  [] :: map lit ["#N/A"; "#N/A N/A"; "#NA"; "-1.#IND"; "-1.#QNAN"; "-NaN";
                 "-nan"; "1.#IND"; "1.#QNAN"; "<NA>"; "N/A"; "NA"; "NULL";
                 "NaN"; "None"; "n/a"; "nan"; "null"]%string.

Definition is_na_marker (s : str) : bool := existsb (str_eqb s) STR_NA_VALUES.

(** The cell [read_csv] makes of a field. *)
Definition read_field (s : str) : value :=
  if is_na_marker s then NaN else VStr s.

(** The table [read_csv] makes of the records of a file, each filled up to
    the [n] fields of the table. *)
Definition table_of_records (n : nat) (records : list (list str)) : DataFrame :=
  MkDF n (map (map read_field) records).

Definition na_rep : str := [].

(** The field [to_csv] writes for a cell. *)
Definition to_csv_field (float_format : float -> str) (v : value) : str :=
  match v with
  | VStr s => s
  | VNum x => if PrimFloat.is_nan x then na_rep else float_format x
  end.

(** A record with the marker [NA] in column 2. *)
Definition na_records : list (list str) :=
  [[lit "12:00:00"; lit "1.0"; lit "NA"; lit "0"; lit "0"; lit "2.0"]].


(** ** Reading a trace *)

(** A summary file is written: [to_csv] with a header row. *)
Definition is_summary_write (e : event) : bool :=
  match e with
  | ToCsv _ (Some _) _ _ => true
  | _ => false
  end.

Definition is_plot_write (e : event) : bool :=
  match e with
  | SaveFig _ _ => true
  | _ => false
  end.

(** Neither a summary file nor a plot. *)
Definition quiet (e : event) : bool :=
  negb (is_summary_write e) && negb (is_plot_write e).

(** The summary files of a trace: path and rows, in the order written. *)
Definition summaries_written (trace : list event) : list (str * list row) :=
  flat_map (fun e => match e with
                     | ToCsv path (Some _) _ table => [(path, table)]
                     | _ => []
                     end) trace.

(** The pattern handed to [glob]. *)
Definition file_pattern (cfg : Config) : str :=
  match TARGET_FOLDER cfg with
  | [] => lit "*_hoden.csv"
  | _ => os_path_join (TARGET_FOLDER cfg) (lit "*_hoden.csv")
  end.

(** The per-file outputs of a trace: [to_csv] without a header row, path
    and rows, in the order written. *)
Definition per_file_writes (trace : list event) : list (str * list row) :=
  flat_map (fun e => match e with
                     | ToCsv path None _ table => [(path, table)]
                     | _ => []
                     end) trace.

(** The plots of a trace: path and series. *)
Definition plots_saved (trace : list event)
  : list (str * list (Z * list (float * float))) :=
  flat_map (fun e => match e with
                     | SaveFig path series => [(path, series)]
                     | _ => []
                     end) trace.

(** Something is written: a CSV file or a plot. *)
Definition is_write (e : event) : bool :=
  match e with
  | ToCsv _ _ _ _ | SaveFig _ _ => true
  | _ => false
  end.

(** ** Sample inputs

    A folder and its tables, for the examples.  [sample_to_numeric] reads
    the three literals the sample tables hold as [pd.to_numeric] reads them,
    and no other string. *)

Definition sample_to_numeric (s : str) : float :=
  if str_eqb s (lit "1.0") then 1%float
  else if str_eqb s (lit "2.0") then 2%float
  else if str_eqb s (lit "inf") then PrimFloat.infinity
  else PrimFloat.nan.

Definition sample_row (timestamp ch1 ch2 : str) : row :=
  [VStr timestamp; VStr ch1; VStr (lit "0"); VStr (lit "0"); VStr (lit "0");
   VStr ch2].

Definition footer_row : row := [VStr (lit "Average"); NaN; NaN; NaN; NaN; NaN].

(** Two rows of 1.0 V and 2.0 V, and a footer. *)
Definition two_rows : DataFrame :=
  MkDF 6 [sample_row (lit "12:00:00") (lit "1.0") (lit "2.0");
          sample_row (lit "12:00:01") (lit "1.0") (lit "2.0");
          footer_row].

(** A table that holds a footer and nothing else. *)
Definition footer_only : DataFrame := MkDF 6 [footer_row].

(** A timestamp followed by a newline (a quoted field of the CSV file), and
    a voltage that reads as infinity. *)
Definition odd_rows : DataFrame :=
  MkDF 6 [sample_row (lit "12:00:00" ++ ["010"%char]) (lit "1.0") (lit "2.0");
          sample_row (lit "12:00:01") (lit "1.0") (lit "inf")].

Definition sample_env (csv_files : list str) (tables : str -> result DataFrame)
  : Env :=
  MkEnv (fun _ => true) (fun _ => csv_files) tables sample_to_numeric
        (fun _ => None) (fun _ => None).

Definition unreadable : str -> result DataFrame :=
  fun _ => Raise (LibraryError (lit "No columns to parse from file")).



(** A table of two columns. *)
Definition narrow_table : DataFrame :=
  MkDF 2 [[VStr (lit "12:00:00"); VStr (lit "1.0")]].

(** * Properties *)

(** ** The filename patterns *)

Example parse_10kohm :
  parse_value_from_filename (lit "20250723_1/10kohm_300Pa_hoden.csv")
    pat_resistance ohm_units = Ok (Some 10000).
Proof. reflexivity. Qed.

Example parse_2Mohm :
  parse_value_from_filename (lit "a/2Mohm_300Pa_hoden.csv")
    pat_resistance ohm_units = Ok (Some 2000000).
Proof. reflexivity. Qed.

Example parse_300Pa :
  parse_value_from_filename (lit "20250723_1/10kohm_300Pa_hoden.csv")
    pat_pressure no_units = Ok (Some 300).
Proof. reflexivity. Qed.

Example parse_none :
  parse_value_from_filename (lit "20250723_1/10ohm_hoden.csv")
    pat_resistance ohm_units = Ok None.
Proof. reflexivity. Qed.

Lemma digit_not_kM a :
  is_digit a = true -> in_class (CSet ["k"; "M"]%char) a = false.
Proof.
  intros H. simpl.
  destruct (Ascii.eqb a "k") eqn:Ek.
  - apply Ascii.eqb_eq in Ek. subst a. discriminate H.
  - destruct (Ascii.eqb a "M") eqn:Em; [|reflexivity].
    apply Ascii.eqb_eq in Em. subst a. discriminate H.
Qed.

Lemma digit_not_char a c :
  is_digit a = true -> is_digit c = false -> Ascii.eqb a c = false.
Proof.
  intros Ha Hc. destruct (Ascii.eqb a c) eqn:E; [|reflexivity].
  apply Ascii.eqb_eq in E. subst. congruence.
Qed.

Lemma digits_of_app_stop d t :
  forallb is_digit d = true ->
  (forall a t', t = a :: t' -> is_digit a = false) ->
  digits_of (d ++ t) = d /\ after_digits (d ++ t) = t.
Proof.
  intros Hd Ht. induction d as [|a d IH]; simpl in *.
  - destruct t as [|b t']; [auto|]. simpl. rewrite (Ht b t' eq_refl). auto.
  - apply andb_true_iff in Hd. destruct Hd as [Ha Hd]. rewrite Ha.
    destruct (IH Hd) as [-> ->]. auto.
Qed.

Lemma digits_of_all_digits s : forallb is_digit (digits_of s) = true.
Proof.
  induction s as [|a s IH]; simpl; [reflexivity|].
  destruct (is_digit a) eqn:E; simpl; [rewrite E; exact IH|reflexivity].
Qed.

Lemma consume_all_open l n g acc cl :
  consume_all l (MState n [(g, acc)] cl)
  = MState (n + List.length l) [(g, rev l ++ acc)] cl.
Proof.
  revert n acc. induction l as [|a l IH]; intros n acc; simpl.
  - f_equal. lia.
  - unfold consume_all in *. simpl. unfold consume at 2. simpl.
    rewrite IH. f_equal; [lia|]. rewrite <- app_assoc. reflexivity.
Qed.

(** The greedy loop over digits, before a continuation that refuses a
    digit, stops exactly at the end of the run of digits. *)
Lemma greedy_digits (k : str -> mstate -> option mstate) :
  (forall a s st, is_digit a = true -> k (a :: s) st = None) ->
  forall s st,
    greedy k CDigit s st = k (after_digits s) (consume_all (digits_of s) st).
Proof.
  intros Hk. induction s as [|a s IH]; intros st; simpl; [reflexivity|].
  destruct (is_digit a) eqn:E; [|reflexivity].
  rewrite IH. unfold consume_all at 2. simpl. fold (consume_all (digits_of s) (consume a st)).
  destruct (k (after_digits s) (consume_all (digits_of s) (consume a st))) eqn:K;
    [reflexivity|].
  apply Hk; exact E.
Qed.

(** A pattern that opens with [(\d+)]. *)
Lemma run_digit_group (rest : regex) :
  (forall a s st, is_digit a = true -> run rest (a :: s) st = None) ->
  forall s n,
    run (IOpen 1 :: IPlus CDigit :: IClose 1 :: rest) s (init_state n)
    = match digits_of s with
      | [] => None
      | d => run rest (after_digits s)
                 (MState (n + List.length d) [] [(1%nat, d)])
      end.
Proof.
  intros Hrest s n.
  destruct s as [|a s]; [reflexivity|].
  cbn [run in_class digits_of after_digits].
  destruct (is_digit a) eqn:E; [|reflexivity].
  rewrite greedy_digits.
  - unfold init_state, open_group, consume. cbn [pos opened groups map fst snd].
    rewrite consume_all_open. cbn [run close_group opened assoc_nat Nat.eqb pos groups filter fst negb].
    rewrite rev_app_distr, rev_involutive. cbn [rev app List.length].
    f_equal. f_equal. lia.
  - intros b s' st Hb. cbn [run]. apply Hrest. exact Hb.
Qed.

Lemma run_pat_resistance s n :
  option_map groups (run pat_resistance s (init_state n))
  = option_map resistance_groups (resistance_here s).
Proof.
  unfold pat_resistance. rewrite run_digit_group.
  - unfold resistance_here.
    destruct (digits_of s) as [|a d]; [reflexivity|].
    destruct (after_digits s) as [|u [|o [|h [|m t]]]]; cbn [run]; try reflexivity.
    + destruct (in_class _ u); reflexivity.
    + destruct (in_class _ u); [|reflexivity]. cbn [in_class].
      destruct (Ascii.eqb o "o"); reflexivity.
    + destruct (in_class _ u); [|reflexivity]. cbn [in_class].
      destruct (Ascii.eqb o "o"); [|reflexivity].
      destruct (Ascii.eqb h "h"); reflexivity.
    + destruct (in_class _ u); [|reflexivity]. cbn [in_class andb].
      destruct (Ascii.eqb o "o"); [|reflexivity].
      destruct (Ascii.eqb h "h"); [|reflexivity].
      destruct (Ascii.eqb m "m"); reflexivity.
  - intros a s' st Ha. cbn [run]. rewrite (digit_not_kM _ Ha). reflexivity.
Qed.

Lemma run_pat_pressure s n :
  option_map groups (run pat_pressure s (init_state n))
  = option_map (fun d => [(1%nat, d)]) (pressure_here s).
Proof.
  unfold pat_pressure. rewrite run_digit_group.
  - unfold pressure_here.
    destruct (digits_of s) as [|a d]; [reflexivity|].
    destruct (after_digits s) as [|p [|q t]]; cbn [run in_class]; try reflexivity.
    + destruct (Ascii.eqb p "P"); reflexivity.
    + destruct (Ascii.eqb p "P"); [|reflexivity]. cbn [andb].
      destruct (Ascii.eqb q "a"); reflexivity.
  - intros a s' st Ha. cbn [run in_class].
    rewrite (digit_not_char _ _ Ha); reflexivity.
Qed.

Lemma resistance_here_some s d u :
  resistance_here s = Some (d, u) ->
  d <> [] /\ forallb is_digit d = true /\ (u = "k" \/ u = "M")%char.
Proof.
  unfold resistance_here. intros H.
  pose proof (digits_of_all_digits s) as Hd.
  destruct (digits_of s) as [|a d']; [discriminate|].
  destruct (after_digits s) as [|u' [|o [|h [|m t]]]]; try discriminate.
  destruct (in_class _ u') eqn:Eu; [|discriminate]. cbn [andb] in H.
  destruct (Ascii.eqb o "o"); [|discriminate]. cbn [andb] in H.
  destruct (Ascii.eqb h "h"); [|discriminate]. cbn [andb] in H.
  destruct (Ascii.eqb m "m"); [|discriminate].
  inversion H; subst. split; [discriminate|]. split; [exact Hd|].
  simpl in Eu. destruct (Ascii.eqb u "k") eqn:Ek.
  - left. apply Ascii.eqb_eq. exact Ek.
  - destruct (Ascii.eqb u "M") eqn:Em; [|discriminate].
    right. apply Ascii.eqb_eq. exact Em.
Qed.

Lemma first_resistance_some s d u :
  first_resistance s = Some (d, u) ->
  d <> [] /\ forallb is_digit d = true /\ (u = "k" \/ u = "M")%char.
Proof.
  induction s as [|a s IH]; cbn [first_resistance]; intros H.
  - destruct (resistance_here []) as [r|] eqn:E; [|discriminate].
    inversion H; subst. eapply resistance_here_some; eauto.
  - destruct (resistance_here (a :: s)) as [r|] eqn:E.
    + inversion H; subst. eapply resistance_here_some; eauto.
    + auto.
Qed.

Lemma pressure_here_some s d :
  pressure_here s = Some d -> d <> [] /\ forallb is_digit d = true.
Proof.
  unfold pressure_here. intros H.
  pose proof (digits_of_all_digits s) as Hd.
  destruct (digits_of s) as [|a d']; [discriminate|].
  destruct (after_digits s) as [|p [|q t]]; try discriminate.
  destruct (Ascii.eqb p "P" && Ascii.eqb q "a"); [|discriminate].
  inversion H; subst. split; [discriminate|exact Hd].
Qed.

Lemma first_pressure_some s d :
  first_pressure s = Some d -> d <> [] /\ forallb is_digit d = true.
Proof.
  induction s as [|a s IH]; cbn [first_pressure]; intros H.
  - destruct (pressure_here []) as [r|] eqn:E; [|discriminate].
    inversion H; subst. eapply pressure_here_some; eauto.
  - destruct (pressure_here (a :: s)) as [r|] eqn:E.
    + inversion H; subst. eapply pressure_here_some; eauto.
    + auto.
Qed.

Lemma search_pat_resistance s n :
  option_map groups (search_from pat_resistance s n)
  = option_map resistance_groups (first_resistance s).
Proof.
  revert n. induction s as [|a s IH]; intros n; cbn [search_from first_resistance].
  - pose proof (run_pat_resistance [] n) as H.
    destruct (run pat_resistance [] (init_state n)), (resistance_here []);
      simpl in *; congruence.
  - pose proof (run_pat_resistance (a :: s) n) as H.
    destruct (run pat_resistance (a :: s) (init_state n)), (resistance_here (a :: s));
      simpl in *; try congruence; try apply IH.
Qed.

Lemma search_pat_pressure s n :
  option_map groups (search_from pat_pressure s n)
  = option_map (fun d => [(1%nat, d)]) (first_pressure s).
Proof.
  revert n. induction s as [|a s IH]; intros n; cbn [search_from first_pressure].
  - pose proof (run_pat_pressure [] n) as H.
    destruct (run pat_pressure [] (init_state n)), (pressure_here []);
      simpl in *; congruence.
  - pose proof (run_pat_pressure (a :: s) n) as H.
    destruct (run pat_pressure (a :: s) (init_state n)), (pressure_here (a :: s));
      simpl in *; try congruence; try apply IH.
Qed.

Lemma py_int_digits (d : str) :
  d <> [] -> forallb is_digit d = true -> py_int (Some d) = Ok (int_digits d).
Proof.
  intros Hne Hd. unfold py_int. destruct d; [congruence|]. rewrite Hd. reflexivity.
Qed.

(** What [parse_value_from_filename] returns for the resistance pattern,
    with any unit table. *)
Lemma parse_resistance_spec filename unit_map :
  parse_value_from_filename filename pat_resistance unit_map
  = Ok match first_resistance (os_path_basename filename) with
       | None => None
       | Some (d, u) =>
           Some match dict_get unit_map [u] with
                | Some factor => int_digits d * factor
                | None => int_digits d
                end
       end.
Proof.
  unfold parse_value_from_filename, re_search.
  pose proof (search_pat_resistance (os_path_basename filename) 0) as H.
  destruct (search_from pat_resistance (os_path_basename filename) 0) as [m|];
    destruct (first_resistance (os_path_basename filename)) as [[d u]|] eqn:F;
    simpl in H; try discriminate; [|reflexivity].
  destruct (first_resistance_some _ _ _ F) as (Hne & Hd & _).
  inversion H as [Hg]. unfold group. rewrite Hg.
  cbn [ngroups pat_resistance filter List.length Nat.leb Nat.ltb bind
       resistance_groups assoc_nat Nat.eqb fst snd].
  rewrite (py_int_digits _ Hne Hd). cbn [bind].
  destruct (dict_get unit_map [u]); reflexivity.
Qed.

Lemma parse_pressure_spec filename :
  parse_value_from_filename filename pat_pressure no_units
  = Ok (option_map int_digits (first_pressure (os_path_basename filename))).
Proof.
  unfold parse_value_from_filename, re_search.
  pose proof (search_pat_pressure (os_path_basename filename) 0) as H.
  destruct (search_from pat_pressure (os_path_basename filename) 0) as [m|];
    destruct (first_pressure (os_path_basename filename)) as [d|] eqn:F;
    simpl in H; try discriminate; [|reflexivity].
  destruct (first_pressure_some _ _ F) as (Hne & Hd).
  inversion H as [Hg]. unfold group. rewrite Hg.
  cbn [ngroups pat_pressure filter List.length Nat.leb Nat.ltb bind assoc_nat Nat.eqb].
  rewrite (py_int_digits _ Hne Hd). reflexivity.
Qed.

(** *** The leftmost occurrence decides *)

Lemma digits_app_nondigit x y :
  existsb (fun a => negb (is_digit a)) x = true ->
  digits_of (x ++ y) = digits_of x /\ after_digits (x ++ y) = after_digits x ++ y.
Proof.
  induction x as [|a x IH]; simpl; intros H; [discriminate|].
  destruct (is_digit a) eqn:E; simpl in H.
  - destruct (IH H) as [-> ->]. auto.
  - auto.
Qed.

Lemma no_digit_at_end_tail a x : no_digit_at_end (a :: x) -> no_digit_at_end x.
Proof.
  intros H s' b Hx. apply (H (a :: s') b). rewrite Hx. reflexivity.
Qed.

Lemma no_digit_at_end_nondigit x :
  x <> [] -> no_digit_at_end x ->
  existsb (fun a => negb (is_digit a)) x = true.
Proof.
  induction x as [|a x IH]; intros Hne H; [congruence|].
  destruct x as [|b x'].
  - simpl. rewrite (H [] a eq_refl). reflexivity.
  - assert (E : existsb (fun a => negb (is_digit a)) (b :: x') = true).
    { apply IH; [discriminate|]. eapply no_digit_at_end_tail; eauto. }
    simpl in *. rewrite E. apply orb_true_r.
Qed.

Lemma resistance_here_app x n y :
  x <> [] -> no_digit_at_end x -> is_digit n = true ->
  resistance_here (x ++ n :: y) = resistance_here x.
Proof.
  intros Hne Hend Hn. unfold resistance_here.
  destruct (digits_app_nondigit x (n :: y) (no_digit_at_end_nondigit x Hne Hend))
    as [-> ->].
  destruct (digits_of x) as [|a d]; [reflexivity|].
  assert (Ho : Ascii.eqb n "o" = false) by (apply digit_not_char; auto).
  assert (Hh : Ascii.eqb n "h" = false) by (apply digit_not_char; auto).
  assert (Hm : Ascii.eqb n "m" = false) by (apply digit_not_char; auto).
  destruct (after_digits x) as [|u [|o [|h [|m t]]]]; cbn [app].
  - rewrite (digit_not_kM _ Hn). destruct y as [|? [|? [|? ?]]]; reflexivity.
  - rewrite Ho, andb_false_r. destruct y as [|? [|? ?]]; reflexivity.
  - rewrite Hh, andb_false_r. destruct y as [|? ?]; reflexivity.
  - rewrite Hm, andb_false_r. reflexivity.
  - reflexivity.
Qed.

Lemma resistance_here_tag (d : str) u post :
  d <> [] -> forallb is_digit d = true -> (u = "k" \/ u = "M")%char ->
  resistance_here (d ++ u :: lit "ohm" ++ post) = Some (d, u).
Proof.
  intros Hne Hd Hu. unfold resistance_here.
  assert (Hnd : is_digit u = false) by (destruct Hu; subst; reflexivity).
  destruct (digits_of_app_stop d (u :: lit "ohm" ++ post) Hd) as [-> ->].
  - intros a t' E. inversion E; subst. exact Hnd.
  - destruct d; [congruence|]. destruct Hu; subst; reflexivity.
Qed.

Lemma first_resistance_none_inv a s :
  first_resistance (a :: s) = None ->
  resistance_here (a :: s) = None /\ first_resistance s = None.
Proof.
  cbn [first_resistance]. destruct (resistance_here (a :: s)); [discriminate|auto].
Qed.

Lemma first_resistance_leftmost pre (d : str) u post :
  d <> [] -> forallb is_digit d = true -> (u = "k" \/ u = "M")%char ->
  no_digit_at_end pre -> first_resistance pre = None ->
  first_resistance (pre ++ d ++ u :: lit "ohm" ++ post) = Some (d, u).
Proof.
  intros Hne Hd Hu. induction pre as [|a pre IH]; intros Hend Hnone.
  - cbn [app]. destruct (d ++ u :: lit "ohm" ++ post) eqn:E.
    + destruct d; [congruence|discriminate].
    + rewrite <- E. cbn [first_resistance].
      assert (Hh := resistance_here_tag d u post Hne Hd Hu).
      rewrite E in *. cbn [first_resistance]. rewrite Hh. reflexivity.
  - destruct (first_resistance_none_inv _ _ Hnone) as [Hh Hrest].
    destruct d as [|n d']; [congruence|].
    cbn [forallb] in Hd. apply andb_true_iff in Hd. destruct Hd as [Hn Hd'].
    change ((a :: pre) ++ (n :: d') ++ u :: lit "ohm" ++ post)
      with (a :: (pre ++ (n :: d') ++ u :: lit "ohm" ++ post)).
    cbn [first_resistance].
    change (a :: (pre ++ (n :: d') ++ u :: lit "ohm" ++ post))
      with ((a :: pre) ++ n :: (d' ++ u :: lit "ohm" ++ post)).
    rewrite resistance_here_app; [|discriminate|exact Hend|exact Hn].
    rewrite Hh. apply IH.
    + eapply no_digit_at_end_tail; eauto.
    + exact Hrest.
Qed.

Lemma search_none_first_resistance s :
  re_search pat_resistance s = None -> first_resistance s = None.
Proof.
  unfold re_search. intros H. pose proof (search_pat_resistance s 0) as E.
  rewrite H in E. destruct (first_resistance s); [discriminate|reflexivity].
Qed.

(** *** Claim C3 *)

(** C3, as stated, fails: a basename that contains [10kohm] need not give
    10000.  In [5Mohm_10kohm_300Pa_hoden.csv] the pattern first matches
    [5Mohm], and [re.search] returns that match: the result is 5000000. *)
Lemma parse_resistance_contains_counterexample :
  os_path_basename (lit "20250723_1/5Mohm_10kohm_300Pa_hoden.csv")
    = lit "5Mohm_" ++ lit "10" ++ lit "kohm" ++ lit "_300Pa_hoden.csv"
  /\ int_digits (lit "10") * 1000 = 10000
  /\ parse_value_from_filename (lit "20250723_1/5Mohm_10kohm_300Pa_hoden.csv")
       pat_resistance ohm_units = Ok (Some 5000000)
  /\ parse_value_from_filename (lit "20250723_1/5Mohm_10kohm_300Pa_hoden.csv")
       pat_resistance ohm_units <> Ok (Some (int_digits (lit "10") * 1000)).
Proof.
  repeat split; try reflexivity. vm_compute. discriminate.
Qed.

(** C3, amended: when the leftmost match of [(\d+)([kM])ohm] in the basename
    is [<N>kohm] (the basename is [pre ++ N ++ "kohm" ++ post], [N] a whole
    run of digits, no match inside [pre]) the extractor returns [N * 1000];
    when it is [<N>Mohm], [N * 1000000]; when the unit letter is not a key of
    the table passed, the integer [N] itself; and for any pattern that does
    not match the basename it returns [None], not an error. *)
Theorem parse_resistance_leftmost :
  forall (filename pre n : str) (u : ascii) (post : str) (unit_map : dict),
    os_path_basename filename = pre ++ n ++ u :: lit "ohm" ++ post ->
    n <> [] -> forallb is_digit n = true ->
    (u = "k" \/ u = "M")%char ->
    no_digit_at_end pre ->
    re_search pat_resistance pre = None ->
    (u = "k"%char ->
     parse_value_from_filename filename pat_resistance ohm_units
     = Ok (Some (int_digits n * 1000)))
    /\ (u = "M"%char ->
        parse_value_from_filename filename pat_resistance ohm_units
        = Ok (Some (int_digits n * 1000000)))
    /\ (dict_get unit_map [u] = None ->
        parse_value_from_filename filename pat_resistance unit_map
        = Ok (Some (int_digits n)))
    /\ (forall f pattern um,
          re_search pattern (os_path_basename f) = None ->
          parse_value_from_filename f pattern um = Ok None).
Proof.
  intros filename pre n u post unit_map Hbase Hne Hd Hu Hend Hpre.
  assert (F : first_resistance (os_path_basename filename) = Some (n, u)).
  { rewrite Hbase. apply first_resistance_leftmost; auto.
    apply search_none_first_resistance; exact Hpre. }
  repeat split.
  - intros ->. rewrite parse_resistance_spec, F. reflexivity.
  - intros ->. rewrite parse_resistance_spec, F. reflexivity.
  - intros Hk. rewrite parse_resistance_spec, F, Hk. reflexivity.
  - intros f pattern um Hnone. unfold parse_value_from_filename.
    rewrite Hnone. reflexivity.
Qed.

Lemma no_digit_at_end_snoc (s : str) (c : ascii) :
  is_digit c = false -> no_digit_at_end (s ++ [c]).
Proof.
  intros Hc s' a H. apply app_inj_tail in H. destruct H as [_ <-]. exact Hc.
Qed.

Lemma parse_resistance_leftmost_witness :
  os_path_basename (lit "20250723_1/run1_10kohm_300Pa_hoden.csv")
    = lit "run1_" ++ lit "10" ++ "k"%char :: lit "ohm" ++ lit "_300Pa_hoden.csv"
  /\ no_digit_at_end (lit "run1_")
  /\ re_search pat_resistance (lit "run1_") = None
  /\ parse_value_from_filename (lit "20250723_1/run1_10kohm_300Pa_hoden.csv")
       pat_resistance ohm_units = Ok (Some (int_digits (lit "10") * 1000))
  /\ parse_value_from_filename (lit "20250723_1/run1_10kohm_300Pa_hoden.csv")
       pat_resistance [(lit "M", 1000000)] = Ok (Some (int_digits (lit "10"))).
Proof.
  assert (Hend : no_digit_at_end (lit "run1_")).
  { apply (no_digit_at_end_snoc (lit "run1") "_"). reflexivity. }
  split; [reflexivity|]. split; [exact Hend|]. split; [reflexivity|].
  destruct (parse_resistance_leftmost
              (lit "20250723_1/run1_10kohm_300Pa_hoden.csv")
              (lit "run1_") (lit "10") "k" (lit "_300Pa_hoden.csv")
              [(lit "M", 1000000)])
    as (Hk & _ & Hraw & _);
    [reflexivity | discriminate | reflexivity | left; reflexivity
    | exact Hend | reflexivity |].
  split; [apply Hk; reflexivity | apply Hraw; reflexivity].
Defined.

(** ** [int] of a string of digits *)

Lemma digit_val_range a : is_digit a = true -> 0 <= digit_val a <= 9.
Proof.
  unfold is_digit, digit_val. intros H. apply andb_true_iff in H.
  destruct H as [H1 H2]. apply Nat.leb_le in H1. apply Nat.leb_le in H2. lia.
Qed.

Lemma digit_val_zero a : digit_val a = 0 <-> a = "0"%char.
Proof.
  unfold digit_val. split.
  - intros H. assert (E : nat_of_ascii a = 48%nat) by lia.
    rewrite <- (ascii_nat_embedding a), E. reflexivity.
  - intros ->. reflexivity.
Qed.

Lemma int_from_bounds (s : str) :
  forallb is_digit s = true ->
  forall acc, 0 <= acc ->
    acc <= fold_left (fun acc a => 10 * acc + digit_val a) s acc.
Proof.
  induction s as [|a s IH]; cbn [fold_left forallb]; intros Hd acc Hacc; [lia|].
  apply andb_true_iff in Hd. destruct Hd as [Ha Hs].
  pose proof (digit_val_range a Ha).
  assert (H0 : 0 <= 10 * acc + digit_val a) by lia.
  specialize (IH Hs (10 * acc + digit_val a) H0). lia.
Qed.

Lemma int_from_zero (s : str) :
  forallb is_digit s = true ->
  forall acc, 0 <= acc ->
    (fold_left (fun acc a => 10 * acc + digit_val a) s acc = 0
     <-> acc = 0 /\ forallb (fun a => Ascii.eqb a "0") s = true).
Proof.
  induction s as [|a s IH]; cbn [fold_left forallb]; intros Hd acc Hacc.
  - intuition.
  - apply andb_true_iff in Hd. destruct Hd as [Ha Hs].
    pose proof (digit_val_range a Ha) as Hr.
    rewrite (IH Hs (10 * acc + digit_val a)) by lia.
    rewrite andb_true_iff, Ascii.eqb_eq, <- digit_val_zero. intuition lia.
Qed.

Lemma int_digits_nonneg (s : str) :
  forallb is_digit s = true -> 0 <= int_digits s.
Proof. intros H. apply (int_from_bounds s H 0). lia. Qed.

Lemma int_digits_zero (s : str) :
  forallb is_digit s = true ->
  (int_digits s = 0 <-> forallb (fun a => Ascii.eqb a "0") s = true).
Proof.
  intros H. unfold int_digits. rewrite (int_from_zero s H 0) by lia. intuition.
Qed.

(** *** Claim C7 *)

(** C7, as stated, fails: [0kohm] matches the pattern and the extractor
    returns 0, by which the corrector then divides (the quotient of the
    floats 2.0 and 0 is infinity; nothing is raised). *)
Lemma resistance_positive_counterexample :
  parse_value_from_filename (lit "20250723_1/0kohm_300Pa_hoden.csv")
    pat_resistance ohm_units = Ok (Some 0)
  /\ ~ (0 < 0)
  /\ PrimFloat.div 2%float (float_of_Z 0) = PrimFloat.infinity.
Proof.
  split; [reflexivity|]. split; [lia|reflexivity].
Qed.

(** C7, amended: every resistance returned by a successful extraction is a
    non-negative integer; with [N] the digits the first group captured, it is
    strictly positive exactly when [N] has a digit other than 0. *)
Theorem resistance_nonnegative :
  forall (filename : str) (r : Z),
    parse_value_from_filename filename pat_resistance ohm_units = Ok (Some r) ->
    0 <= r
    /\ exists m n,
         re_search pat_resistance (os_path_basename filename) = Some m
         /\ group pat_resistance m 1 = Ok (Some n)
         /\ (0 < r <-> existsb (fun a => negb (Ascii.eqb a "0")) n = true).
Proof.
  intros filename r H. rewrite parse_resistance_spec in H.
  pose proof (search_pat_resistance (os_path_basename filename) 0) as HS.
  destruct (first_resistance (os_path_basename filename)) as [[d u]|] eqn:F;
    [|discriminate].
  destruct (first_resistance_some _ _ _ F) as (Hne & Hd & Hu).
  pose proof (int_digits_nonneg d Hd) as Hn.
  pose proof (int_digits_zero d Hd) as Hz.
  assert (Hall : forallb (fun a => Ascii.eqb a "0") d = true
                 <-> existsb (fun a => negb (Ascii.eqb a "0")) d = false).
  { clear. induction d as [|a d IH]; simpl; [intuition|].
    rewrite andb_true_iff, orb_false_iff, IH, negb_false_iff. reflexivity. }
  assert (Hr : exists factor, 0 < factor /\ r = int_digits d * factor).
  { destruct Hu; subst u; inversion H; eexists; (split; [|reflexivity]); lia. }
  destruct Hr as (factor & Hf & ->).
  split; [nia|].
  fold (re_search pat_resistance (os_path_basename filename)) in HS.
  destruct (re_search pat_resistance (os_path_basename filename)) as [m|];
    [|discriminate].
  exists m, d. split; [reflexivity|]. inversion HS as [Hg].
  split.
  - unfold group. rewrite Hg. reflexivity.
  - destruct (existsb (fun a => negb (Ascii.eqb a "0")) d) eqn:E.
    + split; [reflexivity|]. intros _.
      assert (int_digits d <> 0) by (rewrite Hz, Hall; congruence). nia.
    + split; [|discriminate]. intros Hpos.
      assert (int_digits d = 0) by (apply Hz, Hall; reflexivity). nia.
Qed.

Lemma resistance_nonnegative_witness :
  parse_value_from_filename (lit "20250723_1/10kohm_300Pa_hoden.csv")
    pat_resistance ohm_units = Ok (Some 10000)
  /\ 0 <= 10000.
Proof.
  split; [reflexivity|].
  apply (resistance_nonnegative (lit "20250723_1/10kohm_300Pa_hoden.csv") 10000).
  reflexivity.
Defined.

(** ** The [try] block *)

Lemma abind_lift_ok {A B} (a : A) (k : A -> action B) :
  abind (lift (Ok a)) k = k a.
Proof. unfold abind, lift. destruct (k a). reflexivity. Qed.

Lemma abind_lift_raise {A B} (e : exn) (k : A -> action B) :
  abind (lift (Raise e)) k = ([], Raise e).
Proof. reflexivity. Qed.

Lemma abind_emit {B} (e : event) (k : unit -> action B) :
  abind (emit e) k = let (ev, r) := k tt in (e :: ev, r).
Proof. reflexivity. Qed.

Lemma boolean_mask_map (f : row -> bool) (rs : list row) :
  boolean_mask rs (map f rs) = filter f rs.
Proof.
  induction rs as [|r rs IH]; simpl; [reflexivity|].
  rewrite IH. reflexivity.
Qed.

Lemma zip_with_map_r {A B C} (g : A -> B -> C) (f : A -> B) (l : list A) :
  zip_with g l (map f l) = map (fun x => g x (f x)) l.
Proof. induction l as [|a l IH]; simpl; [reflexivity|]. rewrite IH. reflexivity. Qed.

Lemma zip_with_map_map {A B C D} (g : B -> C -> D) (f : A -> B) (h : A -> C)
    (l : list A) :
  zip_with g (map f l) (map h l) = map (fun x => g (f x) (h x)) l.
Proof. induction l as [|a l IH]; simpl; [reflexivity|]. rewrite IH. reflexivity. Qed.

(** What the [try] block does, case by case. *)
Lemma try_block_eq env filepath R P :
  try_block env filepath R P
  = match read_csv env filepath with
    | Raise e => ([], Raise e)
    | Ok df =>
        let filtered :=
          PrintFiltered (List.length (rows df))
                        (List.length (filter timestamped (rows df))) in
        if (0 <? ncols df)%nat then
          if (COL_V_CH1 <? ncols df)%nat then
            if (COL_V_CH2 <? ncols df)%nat then
              match to_csv env (output_filepath filepath) with
              | Some e => ([filtered], Raise e)
              | None =>
                  ([filtered;
                    ToCsv (output_filepath filepath) None false
                          (map (saved_row R) (cleaned env df));
                    PrintSaved (output_filepath filepath)],
                   Ok (map (processed_row R P) (cleaned env df)))
              end
            else ([filtered], Raise (KeyError COL_V_CH2))
          else ([filtered], Raise (KeyError COL_V_CH1))
        else ([], Raise (KeyError 0))
    end.
Proof.
  unfold try_block.
  destruct (read_csv env filepath) as [df|e]; [|reflexivity].
  rewrite abind_lift_ok. unfold getitem at 1.
  destruct (0 <? ncols df)%nat; [|reflexivity].
  rewrite abind_lift_ok, abind_emit.
  rewrite map_map, boolean_mask_map.
  change (fun x => str_match time_format_regex (cell 0 x)) with timestamped.
  cbn [ncols rows]. unfold getitem at 1. cbn [ncols rows].
  destruct (COL_V_CH1 <? ncols df)%nat; [|rewrite abind_lift_raise; reflexivity].
  rewrite abind_lift_ok. unfold setitem at 1. cbn [ncols rows].
  unfold getitem at 1. cbn [ncols rows].
  destruct (COL_V_CH2 <? ncols df)%nat eqn:E5;
    [|rewrite abind_lift_raise; reflexivity].
  rewrite abind_lift_ok.
  unfold setitem, dropna, getitem. cbn [ncols rows]. rewrite E5.
  assert (E1 : (COL_V_CH1 <? ncols df)%nat = true).
  { apply Nat.ltb_lt. apply Nat.ltb_lt in E5. unfold COL_V_CH1, COL_V_CH2 in *. lia. }
  rewrite E1. rewrite !abind_lift_ok.
  rewrite !map_map, !zip_with_map_r.
  fold (output_filepath filepath).
  change (fun x => set_cell COL_V_CH1 (to_numeric_value env (cell COL_V_CH1 x)) x)
    with (convert env COL_V_CH1).
  change (fun x => set_cell COL_V_CH2 (to_numeric_value env (cell COL_V_CH2 x)) x)
    with (convert env COL_V_CH2).
  change (fun r => negb (existsb (fun c => isna (cell c r)) [COL_V_CH1; COL_V_CH2]))
    with complete.
  fold (cleaned env df).
  rewrite !zip_with_map_map, !zip_with_map_r.
  unfold write_csv.
  destruct (to_csv env (output_filepath filepath)) as [e|]; [reflexivity|].
  reflexivity.
Qed.

(** ** The loop over the files *)

(** Neither extraction raises: the loop never stops on a file name. *)
Lemma parse_pressure_total filepath :
  exists pressure,
    parse_value_from_filename filepath pat_pressure no_units = Ok pressure.
Proof. eexists. apply parse_pressure_spec. Qed.

Lemma parse_resistance_total filepath :
  exists resistance,
    parse_value_from_filename filepath pat_resistance ohm_units = Ok resistance.
Proof. eexists. apply parse_resistance_spec. Qed.

(** One turn of the loop, case by case. *)
Lemma loop_body_eq env cfg filepath acc pressure resistance :
  parse_value_from_filename filepath pat_pressure no_units = Ok pressure ->
  parse_value_from_filename filepath pat_resistance ohm_units = Ok resistance ->
  loop_body env cfg filepath acc
  = if not_target (TARGET_PRESSURE cfg) pressure then ([], Ok acc)
    else
      match resistance, pressure with
      | None, _ => ([PrintProcessing filepath; PrintWarnResistance filepath], Ok acc)
      | Some _, None =>
          ([PrintProcessing filepath; PrintWarnPressure filepath], Ok acc)
      | Some r, Some p =>
          match try_block env filepath r p with
          | (evs, Ok processed_df) =>
              (PrintProcessing filepath :: evs, Ok (acc ++ [processed_df]))
          | (evs, Raise e) =>
              (PrintProcessing filepath :: evs ++ [PrintError filepath e], Ok acc)
          end
      end.
Proof.
  intros Hp Hr. unfold loop_body. rewrite Hp, abind_lift_ok.
  destruct (not_target (TARGET_PRESSURE cfg) pressure); [reflexivity|].
  rewrite abind_emit, Hr, abind_lift_ok.
  destruct resistance as [r|]; [|reflexivity].
  destruct pressure as [p|]; [|reflexivity].
  destruct (try_block env filepath r p) as [evs [df|e]]; cbn.
  - rewrite app_nil_r. reflexivity.
  - reflexivity.
Qed.

(** A turn of the loop always ends normally. *)
Lemma loop_body_total env cfg filepath acc :
  exists evs acc', loop_body env cfg filepath acc = (evs, Ok acc').
Proof.
  destruct (parse_pressure_total filepath) as [pressure Hp].
  destruct (parse_resistance_total filepath) as [resistance Hr].
  rewrite (loop_body_eq env cfg filepath acc pressure resistance Hp Hr).
  destruct (not_target (TARGET_PRESSURE cfg) pressure); [eauto|].
  destruct resistance as [r|]; [|eauto].
  destruct pressure as [p|]; [|eauto].
  destruct (try_block env filepath r p) as [evs [df|e]]; eauto.
Qed.

Lemma for_files_cons env cfg filepath rest acc evs acc' :
  loop_body env cfg filepath acc = (evs, Ok acc') ->
  for_files env cfg (filepath :: rest) acc
  = let (evs', out) := for_files env cfg rest acc' in (evs ++ evs', out).
Proof. intros H. cbn [for_files]. unfold abind. rewrite H. reflexivity. Qed.

(** The loop runs over every file and ends normally. *)
Lemma for_files_total env cfg csv_files :
  forall acc, exists evs acc', for_files env cfg csv_files acc = (evs, Ok acc').
Proof.
  induction csv_files as [|f rest IH]; intros acc.
  - exists [], acc. reflexivity.
  - destruct (loop_body_total env cfg f acc) as (evs & acc1 & H).
    destruct (IH acc1) as (evs' & acc' & H').
    exists (evs ++ evs'), acc'.
    rewrite (for_files_cons env cfg f rest acc evs acc1 H), H'. reflexivity.
Qed.

(** *** Claim C6 *)

(** C6, as stated, fails under a target-pressure filter.  With the target
    300 Pa, a file at 500 Pa whose name has no resistance is passed over by
    the filter, and so is a file whose name has no pressure: the filter comes
    before any message, and nothing is logged for either. *)
Lemma skip_warning_counterexample :
  parse_value_from_filename (lit "20250723_1/10ohm_500Pa_hoden.csv")
    pat_resistance ohm_units = Ok None
  /\ loop_body (sample_env [] unreadable) (MkConfig (lit "20250723_1") (Some 300))
       (lit "20250723_1/10ohm_500Pa_hoden.csv") []
     = ([], Ok [])
  /\ parse_value_from_filename (lit "20250723_1/10kohm_hoden.csv")
       pat_pressure no_units = Ok None
  /\ loop_body (sample_env [] unreadable) (MkConfig (lit "20250723_1") (Some 300))
       (lit "20250723_1/10kohm_hoden.csv") []
     = ([], Ok []).
Proof. repeat split; reflexivity. Qed.

(** C6, amended: a file whose resistance or pressure cannot be read from its
    name adds nothing to the collected tables, and the loop goes on with the
    next file.  When the target-pressure filter lets the file through (no
    target is set, or the pressure of the file is the target), a warning is
    printed: the one on the resistance if the resistance is missing, else the
    one on the pressure. *)
Theorem unparsed_file_skipped :
  forall env cfg filepath rest acc pressure resistance,
    parse_value_from_filename filepath pat_pressure no_units = Ok pressure ->
    parse_value_from_filename filepath pat_resistance ohm_units = Ok resistance ->
    pressure = None \/ resistance = None ->
    exists evs,
      loop_body env cfg filepath acc = (evs, Ok acc)
      /\ for_files env cfg (filepath :: rest) acc
         = (let (evs', out) := for_files env cfg rest acc in (evs ++ evs', out))
      /\ (not_target (TARGET_PRESSURE cfg) pressure = false ->
          resistance = None ->
          evs = [PrintProcessing filepath; PrintWarnResistance filepath])
      /\ (not_target (TARGET_PRESSURE cfg) pressure = false ->
          resistance <> None ->
          evs = [PrintProcessing filepath; PrintWarnPressure filepath]).
Proof.
  intros env cfg filepath rest acc pressure resistance Hp Hr Hmiss.
  pose proof (loop_body_eq env cfg filepath acc pressure resistance Hp Hr) as E.
  assert (H : exists evs,
             loop_body env cfg filepath acc = (evs, Ok acc)
             /\ (not_target (TARGET_PRESSURE cfg) pressure = false ->
                 resistance = None ->
                 evs = [PrintProcessing filepath; PrintWarnResistance filepath])
             /\ (not_target (TARGET_PRESSURE cfg) pressure = false ->
                 resistance <> None ->
                 evs = [PrintProcessing filepath; PrintWarnPressure filepath])).
  { destruct (not_target (TARGET_PRESSURE cfg) pressure) eqn:T.
    - exists []. repeat split; auto; discriminate.
    - destruct resistance as [r|].
      + destruct Hmiss as [->|?]; [|discriminate].
        eexists. split; [exact E|]. split; auto; congruence.
      + eexists. split; [exact E|]. split; auto; congruence. }
  destruct H as (evs & Hbody & H1 & H2).
  exists evs. split; [exact Hbody|]. split; [|auto].
  apply for_files_cons. exact Hbody.
Qed.

Lemma unparsed_file_skipped_witness :
  parse_value_from_filename (lit "20250723_1/10ohm_300Pa_hoden.csv")
    pat_resistance ohm_units = Ok None
  /\ exists evs,
       loop_body (sample_env [] unreadable) (MkConfig (lit "20250723_1") (Some 300))
         (lit "20250723_1/10ohm_300Pa_hoden.csv") [] = (evs, Ok [])
       /\ evs = [PrintProcessing (lit "20250723_1/10ohm_300Pa_hoden.csv");
                 PrintWarnResistance (lit "20250723_1/10ohm_300Pa_hoden.csv")].
Proof.
  split; [reflexivity|].
  destruct (unparsed_file_skipped
              (sample_env [] unreadable) (MkConfig (lit "20250723_1") (Some 300))
              (lit "20250723_1/10ohm_300Pa_hoden.csv") [] [] (Some 300) None)
    as (evs & Hbody & _ & Hwarn & _);
    [reflexivity | reflexivity | right; reflexivity |].
  exists evs. split; [exact Hbody|]. apply Hwarn; reflexivity.
Defined.

(** *** Claim C8 *)

(** C8: an exception raised in the [try] block of a file (by [read_csv], by
    a column that is missing, by [to_csv]) is caught; the message that
    names the file and the exception is printed after what the block had
    printed; the collected tables are left as they were; the loop goes on
    with the next file from there, and ends normally. *)
Theorem per_file_failure_isolated :
  forall env cfg filepath rest acc r p evs e,
    parse_value_from_filename filepath pat_pressure no_units = Ok (Some p) ->
    parse_value_from_filename filepath pat_resistance ohm_units = Ok (Some r) ->
    not_target (TARGET_PRESSURE cfg) (Some p) = false ->
    try_block env filepath r p = (evs, Raise e) ->
    loop_body env cfg filepath acc
    = (PrintProcessing filepath :: evs ++ [PrintError filepath e], Ok acc)
    /\ for_files env cfg (filepath :: rest) acc
       = (let (evs', out) := for_files env cfg rest acc in
          ((PrintProcessing filepath :: evs ++ [PrintError filepath e]) ++ evs',
           out))
    /\ exists evs' acc',
         for_files env cfg (filepath :: rest) acc = (evs', Ok acc').
Proof.
  intros env cfg filepath rest acc r p evs e Hp Hr Ht Htry.
  assert (Hbody : loop_body env cfg filepath acc
                  = (PrintProcessing filepath :: evs ++ [PrintError filepath e],
                     Ok acc)).
  { rewrite (loop_body_eq env cfg filepath acc (Some p) (Some r) Hp Hr), Ht, Htry.
    reflexivity. }
  split; [exact Hbody|]. split.
  - apply for_files_cons. exact Hbody.
  - apply for_files_total.
Qed.

Lemma per_file_failure_isolated_witness :
  try_block (sample_env [] unreadable) (lit "20250723_1/10kohm_300Pa_hoden.csv")
    10000 300
  = ([], Raise (LibraryError (lit "No columns to parse from file")))
  /\ loop_body (sample_env [] unreadable) (MkConfig (lit "20250723_1") (Some 300))
       (lit "20250723_1/10kohm_300Pa_hoden.csv") []
     = ([PrintProcessing (lit "20250723_1/10kohm_300Pa_hoden.csv");
         PrintError (lit "20250723_1/10kohm_300Pa_hoden.csv")
                    (LibraryError (lit "No columns to parse from file"))],
        Ok []).
Proof.
  split; [reflexivity|].
  apply (per_file_failure_isolated
           (sample_env [] unreadable) (MkConfig (lit "20250723_1") (Some 300))
           (lit "20250723_1/10kohm_300Pa_hoden.csv") [] [] 10000 300 []
           (LibraryError (lit "No columns to parse from file")));
    reflexivity.
Defined.

(** ** The trace of the loop holds no summary and no plot *)

Lemma try_block_quiet env filepath R P :
  forallb quiet (fst (try_block env filepath R P)) = true.
Proof.
  rewrite try_block_eq.
  destruct (read_csv env filepath) as [df|e]; [|reflexivity].
  cbv zeta.
  destruct (0 <? ncols df)%nat; [|reflexivity].
  destruct (COL_V_CH1 <? ncols df)%nat; [|reflexivity].
  destruct (COL_V_CH2 <? ncols df)%nat; [|reflexivity].
  destruct (to_csv env (output_filepath filepath)); reflexivity.
Qed.

Lemma loop_body_quiet env cfg filepath acc :
  forallb quiet (fst (loop_body env cfg filepath acc)) = true.
Proof.
  destruct (parse_pressure_total filepath) as [pressure Hp].
  destruct (parse_resistance_total filepath) as [resistance Hr].
  rewrite (loop_body_eq env cfg filepath acc pressure resistance Hp Hr).
  destruct (not_target (TARGET_PRESSURE cfg) pressure); [reflexivity|].
  destruct resistance as [r|]; [|reflexivity].
  destruct pressure as [p|]; [|reflexivity].
  pose proof (try_block_quiet env filepath r p) as Q.
  destruct (try_block env filepath r p) as [evs [df|e]]; cbn [fst forallb] in *.
  - rewrite Q. reflexivity.
  - rewrite forallb_app, Q. reflexivity.
Qed.

Lemma for_files_quiet env cfg csv_files :
  forall acc, forallb quiet (fst (for_files env cfg csv_files acc)) = true.
Proof.
  induction csv_files as [|f rest IH]; intros acc; [reflexivity|].
  destruct (loop_body_total env cfg f acc) as (evs & acc1 & H).
  rewrite (for_files_cons env cfg f rest acc evs acc1 H).
  pose proof (loop_body_quiet env cfg f acc) as Q. rewrite H in Q.
  specialize (IH acc1).
  destruct (for_files env cfg rest acc1) as [evs' out]. cbn [fst] in *.
  rewrite forallb_app, Q, IH. reflexivity.
Qed.

Lemma summaries_written_app l l' :
  summaries_written (l ++ l') = summaries_written l ++ summaries_written l'.
Proof. unfold summaries_written. apply flat_map_app. Qed.

Lemma quiet_no_summary l : forallb quiet l = true -> summaries_written l = [].
Proof.
  induction l as [|e l IH]; [reflexivity|]. cbn [forallb]. intros H.
  apply andb_true_iff in H. destruct H as [He Hl].
  unfold summaries_written in *. cbn [flat_map]. rewrite (IH Hl).
  destruct e; try reflexivity. destruct header; [discriminate He|reflexivity].
Qed.

Lemma plots_saved_app l l' :
  plots_saved (l ++ l') = plots_saved l ++ plots_saved l'.
Proof. unfold plots_saved. apply flat_map_app. Qed.

Lemma quiet_no_plot l : forallb quiet l = true -> plots_saved l = [].
Proof.
  induction l as [|e l IH]; [reflexivity|]. cbn [forallb]. intros H.
  apply andb_true_iff in H. destruct H as [He Hl].
  unfold plots_saved in *. cbn [flat_map]. rewrite (IH Hl).
  destruct e; try reflexivity. discriminate He.
Qed.

Lemma per_file_writes_app l l' :
  per_file_writes (l ++ l') = per_file_writes l ++ per_file_writes l'.
Proof. unfold per_file_writes. apply flat_map_app. Qed.

(** The run, once the folder exists and holds files. *)
Lemma analyze_experiment_data_eq env cfg :
  TARGET_FOLDER cfg = [] \/ isdir env (TARGET_FOLDER cfg) = true ->
  glob env (file_pattern cfg) <> [] ->
  analyze_experiment_data env cfg
  = let (evs, out) := for_files env cfg (glob env (file_pattern cfg)) [] in
    let head :=
      PrintFound (List.length (glob env (file_pattern cfg)))
      :: match TARGET_PRESSURE cfg with
         | Some t => [PrintTarget t]
         | None => []
         end ++ [PrintRule] in
    match out with
    | Raise e => (head ++ evs, Raise e)
    | Ok [] => (head ++ evs ++ [PrintNoData (TARGET_PRESSURE cfg)], Ok tt)
    | Ok all_processed_data =>
        let (agg, r) := aggregate_and_plot env cfg all_processed_data in
        (head ++ evs ++ agg, r)
    end.
Proof.
  intros Hdir Hglob.
  assert (E : analyze_experiment_data env cfg
              = analyze_files env cfg (file_pattern cfg)).
  { unfold analyze_experiment_data, file_pattern.
    destruct (TARGET_FOLDER cfg) as [|a t] eqn:F; [reflexivity|].
    destruct Hdir as [Hd|Hd]; [discriminate|]. rewrite Hd. reflexivity. }
  rewrite E. unfold analyze_files.
  destruct (glob env (file_pattern cfg)) as [|f files] eqn:G; [congruence|].
  rewrite abind_emit.
  destruct (for_files env cfg (f :: files) []) as [evs [acc|e]] eqn:L.
  - destruct (TARGET_PRESSURE cfg) as [t|]; destruct acc as [|a acc'];
      cbn [abind emit ret app];
      try destruct (aggregate_and_plot env cfg (a :: acc')) as [agg r];
      cbn [app]; rewrite ?app_nil_r; reflexivity.
  - destruct (TARGET_PRESSURE cfg) as [t|]; cbn [abind emit ret app];
      rewrite ?app_nil_r; reflexivity.
Qed.

(** *** Claim C5 *)

(** C5, as stated, fails: what the script tests is whether the list of
    per-file tables is empty, not whether rows remain.  A file that holds a
    footer and nothing else is processed without error and leaves a table of
    zero rows in the list; the run then goes on to the aggregation, prints no
    "no data" message and saves a plot (no summary: there is no group). *)
Lemma zero_rows_counterexample :
  for_files
    (sample_env [lit "20250723_1/10kohm_300Pa_hoden.csv"] (fun _ => Ok footer_only))
    (MkConfig (lit "20250723_1") (Some 300))
    [lit "20250723_1/10kohm_300Pa_hoden.csv"] []
  = ([PrintProcessing (lit "20250723_1/10kohm_300Pa_hoden.csv");
      PrintFiltered 1 0;
      ToCsv (lit "20250723_1/10kohm_300Pa_processed.csv") None false [];
      PrintSaved (lit "20250723_1/10kohm_300Pa_processed.csv")],
     Ok [[]])
  /\ analyze_experiment_data
       (sample_env [lit "20250723_1/10kohm_300Pa_hoden.csv"]
                   (fun _ => Ok footer_only))
       (MkConfig (lit "20250723_1") (Some 300))
     = ([PrintFound 1; PrintTarget 300; PrintRule;
         PrintProcessing (lit "20250723_1/10kohm_300Pa_hoden.csv");
         PrintFiltered 1 0;
         ToCsv (lit "20250723_1/10kohm_300Pa_processed.csv") None false [];
         PrintSaved (lit "20250723_1/10kohm_300Pa_processed.csv");
         PrintAggregating;
         PrintPlotting;
         SaveFig (lit "20250723_1/current_voltage_characteristics_plot_300Pa.png") [];
         PrintPlotSaved
           (lit "20250723_1/current_voltage_characteristics_plot_300Pa.png")],
        Ok tt).
Proof. split; reflexivity. Qed.

(** C5, amended: if, after all files are processed, the list of per-file
    tables is empty (no file came through the extraction and the [try]
    block), the run ends with the "no data" message, and its trace holds no
    summary file and no plot. *)
Theorem no_table_no_aggregate :
  forall env cfg evs,
    TARGET_FOLDER cfg = [] \/ isdir env (TARGET_FOLDER cfg) = true ->
    glob env (file_pattern cfg) <> [] ->
    for_files env cfg (glob env (file_pattern cfg)) [] = (evs, Ok []) ->
    exists trace,
      analyze_experiment_data env cfg
      = (trace ++ [PrintNoData (TARGET_PRESSURE cfg)], Ok tt)
      /\ forallb quiet trace = true
      /\ summaries_written (trace ++ [PrintNoData (TARGET_PRESSURE cfg)]) = [].
Proof.
  intros env cfg evs Hdir Hglob Hloop.
  rewrite (analyze_experiment_data_eq env cfg Hdir Hglob), Hloop.
  pose proof (for_files_quiet env cfg (glob env (file_pattern cfg)) []) as Q.
  rewrite Hloop in Q. cbn [fst] in Q.
  set (head := PrintFound (List.length (glob env (file_pattern cfg)))
               :: match TARGET_PRESSURE cfg with
                  | Some t => [PrintTarget t]
                  | None => []
                  end ++ [PrintRule]).
  assert (Hq : forallb quiet (head ++ evs) = true).
  { rewrite forallb_app, Q. unfold head.
    destruct (TARGET_PRESSURE cfg); reflexivity. }
  exists (head ++ evs). rewrite <- app_assoc. split; [reflexivity|].
  split; [exact Hq|].
  apply quiet_no_summary. rewrite app_assoc, forallb_app, Hq. reflexivity.
Qed.

Lemma no_table_no_aggregate_witness :
  for_files
    (sample_env [lit "20250723_1/10kohm_300Pa_hoden.csv"] unreadable)
    (MkConfig (lit "20250723_1") (Some 300))
    [lit "20250723_1/10kohm_300Pa_hoden.csv"] []
  = ([PrintProcessing (lit "20250723_1/10kohm_300Pa_hoden.csv");
      PrintError (lit "20250723_1/10kohm_300Pa_hoden.csv")
                 (LibraryError (lit "No columns to parse from file"))],
     Ok [])
  /\ exists trace,
       analyze_experiment_data
         (sample_env [lit "20250723_1/10kohm_300Pa_hoden.csv"] unreadable)
         (MkConfig (lit "20250723_1") (Some 300))
       = (trace ++ [PrintNoData (Some 300)], Ok tt)
       /\ forallb quiet trace = true.
Proof.
  split; [reflexivity|].
  destruct (no_table_no_aggregate
              (sample_env [lit "20250723_1/10kohm_300Pa_hoden.csv"] unreadable)
              (MkConfig (lit "20250723_1") (Some 300))
              [PrintProcessing (lit "20250723_1/10kohm_300Pa_hoden.csv");
               PrintError (lit "20250723_1/10kohm_300Pa_hoden.csv")
                          (LibraryError (lit "No columns to parse from file"))])
    as (trace & Hrun & Hq & _);
    [right; reflexivity | discriminate | reflexivity |].
  exists trace. split; [exact Hrun | exact Hq].
Defined.

(** ** Grouping *)

Lemma insert_unique_In x y l : In y (insert_unique x l) <-> y = x \/ In y l.
Proof.
  induction l as [|z l IH]; simpl; [intuition|].
  destruct (x <? z) eqn:Lt; [simpl; intuition|].
  destruct (x =? z) eqn:Eq.
  - apply Z.eqb_eq in Eq. subst. simpl. intuition.
  - simpl. rewrite IH. intuition.
Qed.

Lemma insert_unique_sorted x l :
  StronglySorted Z.lt l -> StronglySorted Z.lt (insert_unique x l).
Proof.
  induction l as [|z l IH]; simpl; intros H.
  - constructor; constructor.
  - apply StronglySorted_inv in H. destruct H as [Hl Hz].
    destruct (x <? z) eqn:Lt.
    + apply Z.ltb_lt in Lt. constructor; [constructor; assumption|].
      constructor; [exact Lt|]. eapply Forall_impl; [|exact Hz].
      intros a Ha. simpl in Ha. lia.
    + destruct (x =? z) eqn:Eq; [constructor; assumption|].
      apply Z.ltb_ge in Lt. apply Z.eqb_neq in Eq.
      constructor; [apply IH; exact Hl|].
      apply Forall_forall. intros a Ha. apply insert_unique_In in Ha.
      destruct Ha as [->|Ha]; [lia|].
      rewrite Forall_forall in Hz. apply Hz. exact Ha.
Qed.

Lemma sorted_unique_In x l : In x (sorted_unique l) <-> In x l.
Proof.
  induction l as [|y l IH]; simpl; [tauto|].
  rewrite insert_unique_In, IH. intuition.
Qed.

Lemma sorted_unique_sorted l : StronglySorted Z.lt (sorted_unique l).
Proof.
  induction l as [|y l IH]; simpl; [constructor|].
  apply insert_unique_sorted. exact IH.
Qed.

Lemma strictly_sorted_NoDup l : StronglySorted Z.lt l -> NoDup l.
Proof.
  induction l as [|a l IH]; intros H; constructor.
  - apply StronglySorted_inv in H. destruct H as [_ Ha].
    rewrite Forall_forall in Ha. intros Hin. specialize (Ha a Hin). lia.
  - apply IH. apply StronglySorted_inv in H. tauto.
Qed.

Lemma sorted_unique_NoDup l : NoDup (sorted_unique l).
Proof. apply strictly_sorted_NoDup, sorted_unique_sorted. Qed.

Section Partition.

Variable A : Type.
Variable key : A -> Z.

Lemma filter_disjoint_perm (p q : A -> bool) (l : list A) :
  (forall x, p x = true -> q x = false) ->
  Permutation (filter p l ++ filter q l) (filter (fun x => p x || q x) l).
Proof.
  intros D. induction l as [|a l IH]; simpl; [constructor|].
  destruct (p a) eqn:Pa; simpl.
  - rewrite (D a Pa). constructor. exact IH.
  - destruct (q a) eqn:Qa.
    + apply Permutation_sym. eapply Permutation_trans;
        [|apply Permutation_middle]. constructor. apply Permutation_sym. exact IH.
    + exact IH.
Qed.

(** The groups of the keys [keys] hold, together, the rows whose key is
    one of them, each as often as the table holds it. *)
Lemma groups_partition (keys : list Z) (l : list A) :
  NoDup keys ->
  Permutation (flat_map (fun k => filter (fun r => key r =? k) l) keys)
              (filter (fun r => existsb (Z.eqb (key r)) keys) l).
Proof.
  induction keys as [|k keys IH]; intros N; simpl.
  - induction l; simpl; auto.
  - inversion N as [|? ? Hk Hn]; subst.
    eapply Permutation_trans; [apply Permutation_app_head, IH, Hn|].
    apply filter_disjoint_perm.
    intros r Hr. apply Z.eqb_eq in Hr.
    destruct (existsb (Z.eqb (key r)) keys) eqn:E; [|reflexivity].
    apply existsb_exists in E. destruct E as (k' & Hin & Hk').
    apply Z.eqb_eq in Hk'. congruence.
Qed.

End Partition.


(** ** The names of the summary files *)






(** ** The aggregation *)

(** When every summary is written, the trace holds one write for each
    group, in the order of the groups. *)
Lemma write_summaries_ok env cfg grouped :
  forall trace,
    write_summaries env cfg grouped = (trace, Ok tt) ->
    summaries_written trace
    = map (fun g => (summary_filepath cfg (fst g), map summary_row (snd g)))
          grouped.
Proof.
  induction grouped as [|[k g] grouped IH]; intros trace H.
  - inversion H. reflexivity.
  - cbn [write_summaries] in H. unfold write_csv in H.
    destruct (to_csv env (summary_filepath cfg k)) as [e|]; [discriminate H|].
    rewrite !abind_emit in H.
    destruct (write_summaries env cfg grouped) as [evs [[]|e]] eqn:W;
      inversion H; subst.
    cbn [map fst snd]. unfold summaries_written at 1. cbn [flat_map app].
    f_equal. apply IH. reflexivity.
Qed.


Lemma abind_library {B} env c (k : unit -> action B) :
  abind (library env c) k
  = match raises env c with
    | Some e => ([], Raise e)
    | None => k tt
    end.
Proof.
  unfold library. destruct (raises env c); [reflexivity|].
  apply (abind_lift_ok tt k).
Qed.

Lemma plot_each_cases env series :
  plot_each env series = ([], Ok tt)
  \/ exists s e,
       In s series /\ raises env (AxPlot (fst s) (snd s)) = Some e
       /\ plot_each env series = ([], Raise e).
Proof.
  induction series as [|[res points] series IH]; [left; reflexivity|].
  cbn [plot_each]. rewrite abind_library.
  destruct (raises env (AxPlot res points)) as [e|] eqn:R.
  - right. exists (res, points), e. split; [left; reflexivity|].
    split; [exact R|reflexivity].
  - destruct IH as [IH|(s & e & Hin & Hs & IH)]; [left; exact IH|].
    right. exists s, e. split; [right; exact Hin|]. split; [exact Hs|exact IH].
Qed.

(** Step 7 either saves the plot and returns, or stops at the call that
    raises, having printed its first line only. *)
Lemma plot_characteristics_cases env cfg final_df :
  plot_characteristics env cfg final_df
  = ([PrintPlotting; SaveFig (plot_filepath cfg) (plot_series final_df);
      PrintPlotSaved (plot_filepath cfg)], Ok tt)
  \/ exists c e,
       In c (plot_calls cfg final_df) /\ raises env c = Some e
       /\ plot_characteristics env cfg final_df = ([PrintPlotting], Raise e).
Proof.
  unfold plot_characteristics, plot_calls. cbn [app].
  rewrite abind_emit, abind_library.
  destruct (raises env (PltStyleUse plot_style)) as [e|] eqn:R1.
  { right. exists (PltStyleUse plot_style), e.
    split; [left; reflexivity|]. split; [exact R1|reflexivity]. }
  rewrite abind_library.
  destruct (raises env PltSubplots) as [e|] eqn:R2.
  { right. exists PltSubplots, e.
    split; [right; left; reflexivity|]. split; [exact R2|reflexivity]. }
  destruct (plot_each_cases env (plot_series final_df))
    as [P|(s & e & Hin & Hs & P)]; rewrite P.
  2:{ right. exists (AxPlot (fst s) (snd s)), e. split; [|split; [exact Hs|reflexivity]].
      right. right. apply in_or_app. left.
      apply (in_map (fun s => AxPlot (fst s) (snd s))). exact Hin. }
  change (abind ([], Ok tt) ?k) with (abind (lift (Ok tt)) k).
  rewrite abind_lift_ok, abind_library.
  destruct (raises env AxSetUp) as [e|] eqn:R3.
  { right. exists AxSetUp, e. split; [|split; [exact R3|reflexivity]].
    right. right. apply in_or_app. right. left. reflexivity. }
  unfold savefig.
  destruct (raises env (PltSavefig (plot_filepath cfg))) as [e|] eqn:R4.
  { right. exists (PltSavefig (plot_filepath cfg)), e.
    split; [|split; [exact R4|reflexivity]].
    right. right. apply in_or_app. right. right. left. reflexivity. }
  left. reflexivity.
Qed.

(** Steps 5 to 7, by the way they end. *)
Lemma aggregate_and_plot_eq env cfg all_processed_data :
  aggregate_and_plot env cfg all_processed_data
  = match raises env (PdConcat all_processed_data) with
    | Some e => ([], Raise e)
    | None =>
        let final_df := List.concat all_processed_data in
        match write_summaries env cfg (groupby_pressure final_df) with
        | (ws, Raise e) => (PrintAggregating :: ws, Raise e)
        | (ws, Ok _) =>
            let (ps, r) := plot_characteristics env cfg final_df in
            (PrintAggregating :: ws ++ ps, r)
        end
    end.
Proof.
  unfold aggregate_and_plot. rewrite abind_library.
  destruct (raises env (PdConcat all_processed_data)); [reflexivity|].
  cbv zeta. rewrite abind_emit.
  destruct (write_summaries env cfg (groupby_pressure (List.concat all_processed_data)))
    as [ws [[]|e]]; [|reflexivity].
  cbn [abind].
  destruct (plot_characteristics env cfg (List.concat all_processed_data)).
  reflexivity.
Qed.

(** Once [pd.concat] has returned and every summary is written, the trace
    of steps 5 to 7 holds the summaries of the groups, however step 7
    ends. *)
Lemma aggregate_and_plot_summaries env cfg all_processed_data ws :
  raises env (PdConcat all_processed_data) = None ->
  write_summaries env cfg (groupby_pressure (List.concat all_processed_data))
  = (ws, Ok tt) ->
  summaries_written (fst (aggregate_and_plot env cfg all_processed_data))
  = map (fun g => (summary_filepath cfg (fst g), map summary_row (snd g)))
        (groupby_pressure (List.concat all_processed_data)).
Proof.
  intros C W. rewrite aggregate_and_plot_eq, C. cbv zeta. rewrite W.
  rewrite <- (write_summaries_ok env cfg _ ws W).
  destruct (plot_characteristics_cases env cfg (List.concat all_processed_data))
    as [P|(c & e & _ & _ & P)]; rewrite P; cbn [fst];
    change (summaries_written (PrintAggregating :: ?l)) with (summaries_written l);
    rewrite summaries_written_app; cbn; apply app_nil_r.
Qed.

Lemma aggregate_and_plot_ok_inv env cfg all_processed_data trace :
  aggregate_and_plot env cfg all_processed_data = (trace, Ok tt) ->
  raises env (PdConcat all_processed_data) = None
  /\ exists ws,
       write_summaries env cfg (groupby_pressure (List.concat all_processed_data))
       = (ws, Ok tt)
       /\ trace = PrintAggregating :: ws
                  ++ [PrintPlotting;
                      SaveFig (plot_filepath cfg)
                              (plot_series (List.concat all_processed_data));
                      PrintPlotSaved (plot_filepath cfg)].
Proof.
  rewrite aggregate_and_plot_eq.
  destruct (raises env (PdConcat all_processed_data)); [discriminate|].
  cbv zeta.
  destruct (write_summaries env cfg (groupby_pressure (List.concat all_processed_data)))
    as [ws [[]|e]]; [|discriminate].
  destruct (plot_characteristics_cases env cfg (List.concat all_processed_data))
    as [P|(c & e & _ & _ & P)]; rewrite P; intros H; [|discriminate H].
  injection H as <-. split; [reflexivity|]. exists ws. split; reflexivity.
Qed.

Lemma aggregate_and_plot_ok env cfg all_processed_data :
  forall trace,
    aggregate_and_plot env cfg all_processed_data = (trace, Ok tt) ->
    summaries_written trace
    = map (fun g => (summary_filepath cfg (fst g), map summary_row (snd g)))
          (groupby_pressure (List.concat all_processed_data)).
Proof.
  intros trace H.
  destruct (aggregate_and_plot_ok_inv env cfg all_processed_data trace H)
    as (C & ws & W & _).
  rewrite <- (aggregate_and_plot_summaries env cfg all_processed_data ws C W), H.
  reflexivity.
Qed.






(** *** Claim C4 *)



(** ** The timestamp pattern *)

Lemma str_match_time (s : str) :
  str_match time_format_regex (VStr s) = is_hms s || is_hms_newline s.
Proof.
  unfold str_match, re_match, time_format_regex, is_hms_newline, is_hms.
  destruct s as [|c1 [|c2 [|c3 [|c4 [|c5 [|c6 [|c7 [|c8 [|c9 [|c10 t]]]]]]]]]];
    cbn [run take_class in_class init_state pos Nat.eqb];
    repeat match goal with
           | |- context [is_digit ?c] => destruct (is_digit c); cbn [andb orb]
           | |- context [Ascii.eqb ?c ?d] => destruct (Ascii.eqb c d); cbn [andb orb]
           end;
    reflexivity.
Qed.

(** A field that the pattern accepts and that does not end in a newline
    has the shape [dd:dd:dd], and every field of that shape is accepted. *)
Lemma str_match_time_exact (s : str) :
  last s "0"%char <> "010"%char ->
  str_match time_format_regex (VStr s) = is_hms s.
Proof.
  intros Hl. rewrite str_match_time.
  destruct (is_hms_newline s) eqn:E; [|apply orb_false_r].
  exfalso. apply Hl. unfold is_hms_newline in E.
  destruct s as [|c1 [|c2 [|c3 [|c4 [|c5 [|c6 [|c7 [|c8 [|c9 [|c10 t]]]]]]]]]];
    try discriminate E.
  apply andb_true_iff in E. destruct E as [_ E]. apply Ascii.eqb_eq in E.
  subst. reflexivity.
Qed.

(** ** Cells *)

Lemma set_cell_length c v r : List.length (set_cell c v r) = List.length r.
Proof.
  revert c. induction r as [|x r IH]; intros [|c]; simpl; auto.
Qed.

Lemma nth_error_set_cell_ne c c' v r :
  c <> c' -> nth_error (set_cell c' v r) c = nth_error r c.
Proof.
  revert c c'. induction r as [|x r IH]; intros [|c] [|c'] H; simpl; auto;
    congruence.
Qed.

Lemma cell_set_cell_ne c c' v r : c <> c' -> cell c (set_cell c' v r) = cell c r.
Proof.
  unfold cell. revert c c'.
  induction r as [|x r IH]; intros [|c] [|c'] H; simpl; auto; congruence.
Qed.

Lemma cell_set_cell_eq c v r :
  cell c (set_cell c v r) = if (c <? List.length r)%nat then v else NaN.
Proof.
  unfold cell. revert c. induction r as [|x r IH]; intros [|c]; simpl; auto.
Qed.

Lemma cell_short c r : (List.length r <= c)%nat -> cell c r = NaN.
Proof. intros H. unfold cell. apply nth_overflow. exact H. Qed.

Lemma to_numeric_value_num env v : exists x, to_numeric_value env v = VNum x.
Proof. destruct v; simpl; eauto. Qed.

(** After the conversion, the cell of a voltage column is a number. *)
Lemma cell_convert_num env c r : exists x, cell c (convert env c r) = VNum x.
Proof.
  unfold convert. rewrite cell_set_cell_eq.
  destruct (c <? List.length r)%nat; [apply to_numeric_value_num|].
  eexists. reflexivity.
Qed.

Lemma convert_length env c r : List.length (convert env c r) = List.length r.
Proof. apply set_cell_length. Qed.

Lemma filter_map_swap {A B} (f : A -> B) (p : B -> bool) (l : list A) :
  filter p (map f l) = map f (filter (fun x => p (f x)) l).
Proof.
  induction l as [|a l IH]; simpl; [reflexivity|].
  destruct (p (f a)); simpl; rewrite IH; reflexivity.
Qed.

Lemma filter_filter {A} (p q : A -> bool) (l : list A) :
  filter q (filter p l) = filter (fun x => p x && q x) l.
Proof.
  induction l as [|a l IH]; simpl; [reflexivity|].
  destruct (p a); simpl; [destruct (q a)|]; rewrite IH; reflexivity.
Qed.

(** The cleaned rows are the converted rows of the source that survive, in
    the order of the source. *)
Lemma cleaned_survives env df :
  cleaned env df
  = map (fun r => convert env COL_V_CH2 (convert env COL_V_CH1 r))
        (filter (survives env) (rows df)).
Proof.
  unfold cleaned. rewrite map_map, filter_map_swap, filter_filter. reflexivity.
Qed.

(** A cleaned row: its first field passed the pattern, its two voltage
    cells are numbers other than NaN, and it is long enough to hold them. *)
Lemma cleaned_row_facts env df r :
  In r (cleaned env df) ->
  (exists ts, cell 0 r = VStr ts /\ str_match time_format_regex (VStr ts) = true)
  /\ (exists v1, cell COL_V_CH1 r = VNum v1 /\ PrimFloat.is_nan v1 = false)
  /\ (exists v2, cell COL_V_CH2 r = VNum v2 /\ PrimFloat.is_nan v2 = false)
  /\ (COL_V_CH2 < List.length r)%nat.
Proof.
  rewrite cleaned_survives. intros H. apply in_map_iff in H.
  destruct H as (r0 & <- & H). apply filter_In in H. destruct H as [_ H].
  unfold survives in H. apply andb_true_iff in H. destruct H as [Ht Hc].
  set (r1 := convert env COL_V_CH1 r0) in *.
  set (r2 := convert env COL_V_CH2 r1) in *.
  unfold complete in Hc. cbn [existsb] in Hc. rewrite orb_false_r in Hc.
  apply negb_true_iff, orb_false_iff in Hc. destruct Hc as [H1 H5].
  assert (E0 : cell 0 r2 = cell 0 r0).
  { unfold r2, r1, convert. rewrite !cell_set_cell_ne; [reflexivity| |];
      unfold COL_V_CH1, COL_V_CH2; lia. }
  assert (E1 : cell COL_V_CH1 r2 = cell COL_V_CH1 r1).
  { unfold r2, convert. apply cell_set_cell_ne. unfold COL_V_CH1, COL_V_CH2. lia. }
  repeat split.
  - unfold timestamped in Ht. rewrite E0.
    destruct (cell 0 r0) as [ts|x]; [|discriminate Ht]. eauto.
  - rewrite E1 in *. destruct (cell_convert_num env COL_V_CH1 r0) as [x Hx].
    fold r1 in Hx. rewrite Hx in *. eauto.
  - destruct (cell_convert_num env COL_V_CH2 r1) as [x Hx].
    fold r2 in Hx. rewrite Hx in *. eauto.
  - destruct (Nat.ltb_spec COL_V_CH2 (List.length r2)) as [L|L]; [exact L|].
    rewrite (cell_short _ _ L) in H5. discriminate H5.
Qed.

(** ** What the [try] block writes *)

Lemma try_block_written env filepath R P path header index table :
  In (ToCsv path header index table) (fst (try_block env filepath R P)) ->
  exists df,
    read_csv env filepath = Ok df
    /\ path = output_filepath filepath /\ header = None /\ index = false
    /\ table = map (saved_row R) (cleaned env df)
    /\ snd (try_block env filepath R P)
       = Ok (map (processed_row R P) (cleaned env df)).
Proof.
  rewrite try_block_eq.
  destruct (read_csv env filepath) as [df|e]; [|intros []].
  cbv zeta.
  destruct (0 <? ncols df)%nat; [|intros []].
  destruct (COL_V_CH1 <? ncols df)%nat;
    [|intros [H|[]]; discriminate H].
  destruct (COL_V_CH2 <? ncols df)%nat;
    [|intros [H|[]]; discriminate H].
  destruct (to_csv env (output_filepath filepath));
    [intros [H|[]]; discriminate H|].
  intros [H|[H|[H|[]]]]; try discriminate H.
  injection H as <- <- <- <-. exists df. repeat split; reflexivity.
Qed.

Lemma try_block_ok env filepath R P evs processed :
  try_block env filepath R P = (evs, Ok processed) ->
  exists df,
    read_csv env filepath = Ok df
    /\ evs = [PrintFiltered (List.length (rows df))
                            (List.length (filter timestamped (rows df)));
              ToCsv (output_filepath filepath) None false
                    (map (saved_row R) (cleaned env df));
              PrintSaved (output_filepath filepath)]
    /\ processed = map (processed_row R P) (cleaned env df).
Proof.
  rewrite try_block_eq.
  destruct (read_csv env filepath) as [df|e]; [|discriminate].
  cbv zeta.
  destruct (0 <? ncols df)%nat; [|discriminate].
  destruct (COL_V_CH1 <? ncols df)%nat; [|discriminate].
  destruct (COL_V_CH2 <? ncols df)%nat; [|discriminate].
  destruct (to_csv env (output_filepath filepath)); [discriminate|].
  intros H. injection H as <- <-. exists df. repeat split; reflexivity.
Qed.

Lemma cell_app_l c (r t : row) :
  (c < List.length r)%nat -> cell c (r ++ t) = cell c r.
Proof. intros H. unfold cell. apply app_nth1. exact H. Qed.

(** *** Claim C2 *)

(** C2, as stated, fails on both counts.  In the table [odd_rows] the first
    row has the timestamp [12:00:00] followed by a newline: [$] matches
    before a final newline, the row is kept, and its first field is not of
    the shape [HH:MM:SS].  The second row has the voltage [inf]: it reads as
    a number, infinity, which [dropna] keeps, and it is not finite. *)
Lemma cleaned_rows_counterexample :
  cleaned (sample_env [] (fun _ => Ok odd_rows)) odd_rows
  = [[VStr (lit "12:00:00" ++ ["010"%char]); VNum 1%float; VStr (lit "0");
      VStr (lit "0"); VStr (lit "0"); VNum 2%float];
     [VStr (lit "12:00:01"); VNum 1%float; VStr (lit "0");
      VStr (lit "0"); VStr (lit "0"); VNum PrimFloat.infinity]]
  /\ In (ToCsv (lit "20250723_1/10kohm_300Pa_processed.csv") None false
           (map (saved_row 10000)
                (cleaned (sample_env [] (fun _ => Ok odd_rows)) odd_rows)))
        (fst (try_block (sample_env [] (fun _ => Ok odd_rows))
                        (lit "20250723_1/10kohm_300Pa_hoden.csv") 10000 300))
  /\ is_hms (lit "12:00:00" ++ ["010"%char]) = false
  /\ is_finite PrimFloat.infinity = false.
Proof.
  split; [reflexivity|]. split; [|split; reflexivity].
  right. left. reflexivity.
Qed.

Lemma Forall2_map_same {A B} (R : B -> A -> Prop) (f : A -> B) (l : list A) :
  (forall x, In x l -> R (f x) x) -> Forall2 R (map f l) l.
Proof.
  induction l as [|a l IH]; intros H; simpl; constructor.
  - apply H. left. reflexivity.
  - apply IH. intros x Hx. apply H. right. exact Hx.
Qed.

(** What comes through the cleaning, said on the row as read: a first field
    of the shape of a time, alone or before one newline, and two voltage
    cells that do not fail the coercion. *)
Lemma isna_converted env c r :
  isna (if (c <? List.length r)%nat then to_numeric_value env (cell c r) else NaN)
  = coercion_fails env (cell c r).
Proof.
  destruct (Nat.ltb_spec c (List.length r)) as [L|L].
  - destruct (cell c r); reflexivity.
  - rewrite (cell_short c r L). reflexivity.
Qed.

Lemma survives_spec env r :
  survives env r
  = match cell 0 r with
    | VStr ts => is_hms ts || is_hms_newline ts
    | VNum _ => false
    end
    && negb (coercion_fails env (cell COL_V_CH1 r))
    && negb (coercion_fails env (cell COL_V_CH2 r)).
Proof.
  unfold survives, timestamped, complete. cbn [existsb].
  rewrite orb_false_r, negb_orb, andb_assoc.
  assert (E1 : cell COL_V_CH1 (convert env COL_V_CH2 (convert env COL_V_CH1 r))
               = if (COL_V_CH1 <? List.length r)%nat
                 then to_numeric_value env (cell COL_V_CH1 r) else NaN).
  { unfold convert at 1. rewrite cell_set_cell_ne by (unfold COL_V_CH1, COL_V_CH2; lia).
    unfold convert. apply cell_set_cell_eq. }
  assert (E5 : cell COL_V_CH2 (convert env COL_V_CH2 (convert env COL_V_CH1 r))
               = if (COL_V_CH2 <? List.length r)%nat
                 then to_numeric_value env (cell COL_V_CH2 r) else NaN).
  { unfold convert at 1. rewrite cell_set_cell_eq, convert_length.
    unfold convert. rewrite cell_set_cell_ne by (unfold COL_V_CH1, COL_V_CH2; lia).
    reflexivity. }
  rewrite E1, E5, !isna_converted.
  destruct (cell 0 r) as [ts|x]; [rewrite str_match_time|]; reflexivity.
Qed.

(** C2, amended: every row that comes through the cleaning has a first
    field that the pattern [^\d{2}:\d{2}:\d{2}$] accepts, which for a field
    that does not end in a newline is exactly two digits, a colon, two
    digits, a colon, two digits; and its two voltage cells are numbers that
    are not NaN.  Every row in which a voltage fails the conversion is
    dropped: the rows written are, one for one and in the order of the
    table read, its rows that have a first field of that shape (alone or
    before one newline) and two voltage cells that do not fail the
    coercion; a row written has one cell more than its row of the table and,
    outside the two voltage columns, the cells of that row. *)
Theorem cleaned_rows_invariant :
  forall env filepath R P path header index table,
    In (ToCsv path header index table) (fst (try_block env filepath R P)) ->
    (forall r',
       In r' table ->
       exists r ts v1 v2,
         r' = r ++ [VNum (row_current R r)]
         /\ cell 0 r' = VStr ts
         /\ re_match time_format_regex ts <> None
         /\ (last ts "0"%char <> "010"%char -> is_hms ts = true)
         /\ cell COL_V_CH1 r' = VNum v1 /\ PrimFloat.is_nan v1 = false
         /\ cell COL_V_CH2 r' = VNum v2 /\ PrimFloat.is_nan v2 = false)
    /\ exists df,
         read_csv env filepath = Ok df
         /\ Forall2
              (fun r' r =>
                 List.length r' = S (List.length r)
                 /\ forall c, c <> COL_V_CH1 -> c <> COL_V_CH2 ->
                              (c < List.length r)%nat -> cell c r' = cell c r)
              table
              (filter
                 (fun r =>
                    match cell 0 r with
                    | VStr ts => is_hms ts || is_hms_newline ts
                    | VNum _ => false
                    end
                    && negb (coercion_fails env (cell COL_V_CH1 r))
                    && negb (coercion_fails env (cell COL_V_CH2 r)))
                 (rows df)).
Proof.
  intros env filepath R P path header index table Hw.
  destruct (try_block_written _ _ _ _ _ _ _ _ Hw) as (df & Hread & _ & _ & _ & -> & _).
  split.
  - intros r' Hr'. apply in_map_iff in Hr'. destruct Hr' as (r & <- & Hr).
    destruct (cleaned_row_facts env df r Hr)
      as ((ts & E0 & Hm) & (v1 & E1 & N1) & (v2 & E2 & N2) & L).
    exists r, ts, v1, v2. unfold saved_row.
    unfold COL_V_CH1, COL_V_CH2 in *.
    rewrite !cell_app_l by lia.
    repeat split; auto.
    + unfold str_match in Hm. destruct (re_match time_format_regex ts); congruence.
    + intros Hl. rewrite <- (str_match_time_exact ts Hl). exact Hm.
  - exists df. split; [exact Hread|].
    rewrite cleaned_survives, map_map.
    rewrite (filter_ext _ _ (survives_spec env)).
    apply Forall2_map_same. intros r Hr. unfold saved_row.
    rewrite length_app, !convert_length. split; [cbn; lia|].
    intros c H1 H5 Hc.
    rewrite cell_app_l by (rewrite !convert_length; exact Hc).
    unfold convert. rewrite !cell_set_cell_ne by assumption. reflexivity.
Qed.

Lemma cleaned_rows_invariant_witness :
  let env := sample_env [] (fun _ => Ok two_rows) in
  let saved ts := [VStr (lit ts); VNum 1%float; VStr (lit "0"); VStr (lit "0");
                   VStr (lit "0"); VNum 2%float; VNum 0.0019999%float] in
  let r' := saved "12:00:01"%string in
  In (ToCsv (lit "20250723_1/1kohm_300Pa_processed.csv") None false
            [saved "12:00:00"%string; r'])
     (fst (try_block env (lit "20250723_1/1kohm_300Pa_hoden.csv") 1000 300))
  /\ In r' [saved "12:00:00"%string; r']
  /\ (exists r ts v1 v2,
        r' = r ++ [VNum (row_current 1000 r)]
        /\ cell 0 r' = VStr ts
        /\ re_match time_format_regex ts <> None
        /\ (last ts "0"%char <> "010"%char -> is_hms ts = true)
        /\ cell COL_V_CH1 r' = VNum v1 /\ PrimFloat.is_nan v1 = false
        /\ cell COL_V_CH2 r' = VNum v2 /\ PrimFloat.is_nan v2 = false)
  /\ exists df kept,
       read_csv env (lit "20250723_1/1kohm_300Pa_hoden.csv") = Ok df
       /\ List.length (rows df) = 3%nat
       /\ Forall2 (fun r' r => List.length r' = S (List.length r)
                               /\ forall c, c <> COL_V_CH1 -> c <> COL_V_CH2 ->
                                            (c < List.length r)%nat ->
                                            cell c r' = cell c r)
                  [saved "12:00:00"%string; r'] kept.
Proof.
  intros env saved r'.
  assert (Hw : In (ToCsv (lit "20250723_1/1kohm_300Pa_processed.csv") None false
                         [saved "12:00:00"%string; r'])
                  (fst (try_block env (lit "20250723_1/1kohm_300Pa_hoden.csv")
                                  1000 300))).
  { right. left. vm_compute. reflexivity. }
  assert (Hr : In r' [saved "12:00:00"%string; r']) by (right; left; reflexivity).
  split; [exact Hw|]. split; [exact Hr|].
  destruct (cleaned_rows_invariant env (lit "20250723_1/1kohm_300Pa_hoden.csv")
              1000 300 _ _ _ _ Hw) as [Hrows (df & Hread & Hkept)].
  split; [exact (Hrows r' Hr)|].
  eexists df, _. split; [exact Hread|]. split; [|exact Hkept].
  injection Hread as <-. reflexivity.
Defined.

(** *** Claim C1 *)

(** C1: for every file that comes through the [try] block with the
    resistance [R] of its name, each cleaned row, with the voltages [v1] and
    [v2] in its columns 1 and 5, gives the current [v2 / R - v1 / 10000000]:
    it is the last cell of the row written and the [final_current_A] of the
    row collected.  The divisor 10000000 is the same for every file.  With
    1.0 V, 2.0 V and 1000 ohm the current is 0.0019999. *)
Theorem corrector_formula :
  forall env filepath R P evs processed,
    try_block env filepath R P = (evs, Ok processed) ->
    exists df,
      read_csv env filepath = Ok df
      /\ In (ToCsv (output_filepath filepath) None false
                   (map (saved_row R) (cleaned env df))) evs
      /\ Forall2
           (fun saved r =>
              exists v1 v2,
                cell COL_V_CH1 r = VNum v1 /\ cell COL_V_CH2 r = VNum v2
                /\ saved = r ++ [VNum (v2 / float_of_Z R - v1 / 10000000)%float])
           (map (saved_row R) (cleaned env df)) (cleaned env df)
      /\ Forall2
           (fun collected r =>
              exists v1 v2,
                cell COL_V_CH1 r = VNum v1 /\ cell COL_V_CH2 r = VNum v2
                /\ collected
                   = MkProcessed v1 (v2 / float_of_Z R - v1 / 10000000)%float R P)
           processed (cleaned env df)
      /\ (2 / float_of_Z 1000 - 1 / 10000000 = 0.0019999)%float.
Proof.
  intros env filepath R P evs processed H.
  destruct (try_block_ok _ _ _ _ _ _ H) as (df & Hread & -> & ->).
  exists df. split; [exact Hread|]. split; [right; left; reflexivity|].
  split; [|split; [|reflexivity]].
  - apply Forall2_map_same. intros r Hr.
    destruct (cleaned_row_facts env df r Hr) as (_ & (v1 & E1 & _) & (v2 & E2 & _) & _).
    exists v1, v2. split; [exact E1|]. split; [exact E2|].
    unfold saved_row, row_current, final_current. rewrite E1, E2. reflexivity.
  - apply Forall2_map_same. intros r Hr.
    destruct (cleaned_row_facts env df r Hr) as (_ & (v1 & E1 & _) & (v2 & E2 & _) & _).
    exists v1, v2. split; [exact E1|]. split; [exact E2|].
    unfold processed_row, row_current, final_current. rewrite E1, E2. reflexivity.
Qed.

Lemma corrector_formula_witness :
  let env := sample_env [] (fun _ => Ok two_rows) in
  snd (try_block env (lit "20250723_1/1kohm_300Pa_hoden.csv") 1000 300)
  = Ok [MkProcessed 1%float 0.0019999%float 1000 300;
        MkProcessed 1%float 0.0019999%float 1000 300]
  /\ exists df,
       read_csv env (lit "20250723_1/1kohm_300Pa_hoden.csv") = Ok df
       /\ In (ToCsv (output_filepath (lit "20250723_1/1kohm_300Pa_hoden.csv"))
                    None false (map (saved_row 1000) (cleaned env df)))
             (fst (try_block env (lit "20250723_1/1kohm_300Pa_hoden.csv") 1000 300)).
Proof.
  intros env. split; [vm_compute; reflexivity|].
  destruct (corrector_formula env (lit "20250723_1/1kohm_300Pa_hoden.csv") 1000 300
              (fst (try_block env (lit "20250723_1/1kohm_300Pa_hoden.csv") 1000 300))
              [MkProcessed 1%float 0.0019999%float 1000 300;
               MkProcessed 1%float 0.0019999%float 1000 300])
    as (df & Hread & Hw & _); [vm_compute; reflexivity|].
  exists df. split; [exact Hread | exact Hw].
Defined.

(** *** Claim C10 *)

Lemma read_field_nil : read_field [] = NaN.
Proof. reflexivity. Qed.

Lemma cell_read_fields j fields s :
  nth_error fields j = Some s -> cell j (map read_field fields) = read_field s.
Proof.
  intros H. unfold cell. rewrite <- read_field_nil, map_nth.
  rewrite (nth_error_nth fields j [] H). reflexivity.
Qed.

(** A field that is read and does not fail the coercion is no NA marker,
    and [pd.to_numeric] reads a number in it. *)
Lemma read_field_number env s :
  coercion_fails env (read_field s) = false ->
  read_field s = VStr s /\ PrimFloat.is_nan (to_numeric env s) = false.
Proof.
  unfold read_field. destruct (is_na_marker s); [discriminate|].
  intros H. split; [reflexivity|exact H].
Qed.

(** C10, as stated, fails: [read_csv] is called with [dtype=str] but with
    the NA handling of pandas left on, so a field that holds one of the NA
    markers is read as a missing value, and [to_csv] writes a missing value
    as an empty field.  The record of [na_records] holds [NA] in column 2;
    the row written for it holds a missing value there, and the field of
    the output is empty. *)
Lemma na_marker_counterexample :
  let env := sample_env [] (fun _ => Ok (table_of_records 6 na_records)) in
  let saved := [VStr (lit "12:00:00"); VNum 1%float; NaN; VStr (lit "0");
                VStr (lit "0"); VNum 2%float; VNum 0.0019999%float] in
  try_block env (lit "20250723_1/1kohm_300Pa_hoden.csv") 1000 300
  = ([PrintFiltered 1 1;
      ToCsv (lit "20250723_1/1kohm_300Pa_processed.csv") None false [saved];
      PrintSaved (lit "20250723_1/1kohm_300Pa_processed.csv")],
     Ok [MkProcessed 1%float 0.0019999%float 1000 300])
  /\ map (fun fields => nth_error fields 2) na_records = [Some (lit "NA")]
  /\ forall float_format,
       to_csv_field float_format (cell 2 saved) = []
       /\ to_csv_field float_format (cell 2 saved) <> lit "NA".
Proof.
  intros env saved. split; [vm_compute; reflexivity|].
  split; [reflexivity|]. intros float_format.
  split; [reflexivity|discriminate].
Qed.

(** C10, amended: the rows written for a file are, one for one and in the
    order of the file, its records that come through the cleaning.  In a
    row written, every field outside the columns 1 and 5 is the field of the
    record, unless that field is one of the NA markers of [read_csv]: then
    it is written empty.  Column 1 and column 5 hold the numbers that
    [pd.to_numeric] reads in the fields of the record, and the one cell
    added, the last, holds the current computed from these two numbers. *)
Theorem other_fields_unchanged_unless_na :
  forall env filepath R P n records path header index table,
    read_csv env filepath = Ok (table_of_records n records) ->
    Forall (fun fields => List.length fields = n) records ->
    In (ToCsv path header index table) (fst (try_block env filepath R P)) ->
    Forall2
      (fun saved fields =>
         List.length saved = S n
         /\ (forall float_format j s,
               j <> COL_V_CH1 -> j <> COL_V_CH2 -> nth_error fields j = Some s ->
               to_csv_field float_format (cell j saved)
               = if is_na_marker s then [] else s)
         /\ exists s1 s5,
              nth_error fields COL_V_CH1 = Some s1
              /\ nth_error fields COL_V_CH2 = Some s5
              /\ cell COL_V_CH1 saved = VNum (to_numeric env s1)
              /\ cell COL_V_CH2 saved = VNum (to_numeric env s5)
              /\ cell n saved
                 = VNum (to_numeric env s5 / float_of_Z R
                         - to_numeric env s1 / 10000000)%float)
      table
      (filter (fun fields => survives env (map read_field fields)) records).
Proof.
  intros env filepath R P n records path header index table Hread Hn Hw.
  destruct (try_block_written _ _ _ _ _ _ _ _ Hw) as (df & Hread' & _ & _ & _ & -> & _).
  rewrite Hread in Hread'. injection Hread' as <-.
  rewrite cleaned_survives, map_map. unfold table_of_records. cbn [rows].
  rewrite filter_map_swap, map_map.
  apply Forall2_map_same. intros fields Hf. apply filter_In in Hf.
  destruct Hf as [Hin Hs].
  rewrite Forall_forall in Hn. specialize (Hn fields Hin).
  set (r0 := map read_field fields) in *.
  assert (L0 : List.length r0 = n) by (unfold r0; rewrite length_map; exact Hn).
  rewrite survives_spec in Hs.
  apply andb_true_iff in Hs. destruct Hs as [Hs H5].
  apply andb_true_iff in Hs. destruct Hs as [_ H1].
  apply negb_true_iff in H1, H5.
  assert (L5 : (COL_V_CH2 < n)%nat).
  { destruct (Nat.ltb_spec COL_V_CH2 n) as [L|L]; [exact L|].
    rewrite cell_short in H5 by (rewrite L0; exact L). discriminate H5. }
  destruct (nth_error fields COL_V_CH1) as [s1|] eqn:F1.
  2:{ apply nth_error_None in F1. unfold COL_V_CH1, COL_V_CH2 in *. lia. }
  destruct (nth_error fields COL_V_CH2) as [s5|] eqn:F5.
  2:{ apply nth_error_None in F5. lia. }
  unfold r0 in H1, H5.
  rewrite (cell_read_fields _ _ _ F1) in H1.
  rewrite (cell_read_fields _ _ _ F5) in H5.
  destruct (read_field_number env s1 H1) as [V1 _].
  destruct (read_field_number env s5 H5) as [V5 _].
  set (r := convert env COL_V_CH2 (convert env COL_V_CH1 r0)).
  assert (Lr : List.length r = n) by (unfold r; rewrite !convert_length; exact L0).
  assert (E1 : cell COL_V_CH1 r = VNum (to_numeric env s1)).
  { unfold r. unfold convert at 1.
    rewrite cell_set_cell_ne by (unfold COL_V_CH1, COL_V_CH2; lia).
    unfold convert. rewrite cell_set_cell_eq, L0.
    destruct (Nat.ltb_spec COL_V_CH1 n) as [L|L];
      [|unfold COL_V_CH1, COL_V_CH2 in *; lia].
    unfold r0. rewrite (cell_read_fields _ _ _ F1), V1. reflexivity. }
  assert (E5 : cell COL_V_CH2 r = VNum (to_numeric env s5)).
  { unfold r. unfold convert at 1. rewrite cell_set_cell_eq, convert_length, L0.
    destruct (Nat.ltb_spec COL_V_CH2 n) as [L|L]; [|lia].
    unfold convert. rewrite cell_set_cell_ne by (unfold COL_V_CH1, COL_V_CH2; lia).
    unfold r0. rewrite (cell_read_fields _ _ _ F5), V5. reflexivity. }
  unfold saved_row. split; [rewrite length_app, Lr; cbn; lia|]. split.
  - intros float_format j s Hj1 Hj5 Fj.
    assert (Lj : (j < n)%nat).
    { rewrite <- Hn. apply nth_error_Some. rewrite Fj. discriminate. }
    rewrite cell_app_l by (rewrite Lr; exact Lj).
    unfold r, convert. rewrite !cell_set_cell_ne by assumption.
    unfold r0. rewrite (cell_read_fields _ _ _ Fj).
    unfold read_field. destruct (is_na_marker s); reflexivity.
  - exists s1, s5. split; [reflexivity|]. split; [reflexivity|].
    rewrite !cell_app_l by (rewrite Lr; unfold COL_V_CH1, COL_V_CH2 in *; lia).
    split; [exact E1|]. split; [exact E5|].
    unfold cell. rewrite <- Lr, nth_middle.
    unfold row_current, final_current. rewrite E1, E5. reflexivity.
Qed.

Lemma other_fields_unchanged_unless_na_witness :
  let env := sample_env [] (fun _ => Ok (table_of_records 6 na_records)) in
  let saved := [VStr (lit "12:00:00"); VNum 1%float; NaN; VStr (lit "0");
                VStr (lit "0"); VNum 2%float; VNum 0.0019999%float] in
  In (ToCsv (lit "20250723_1/1kohm_300Pa_processed.csv") None false [saved])
     (fst (try_block env (lit "20250723_1/1kohm_300Pa_hoden.csv") 1000 300))
  /\ Forall (fun fields => List.length fields = 6%nat) na_records
  /\ forall float_format,
       to_csv_field float_format (cell 0 saved) = lit "12:00:00"
       /\ to_csv_field float_format (cell 2 saved) = []
       /\ to_csv_field float_format (cell 3 saved) = lit "0".
Proof.
  intros env saved.
  assert (Hw : In (ToCsv (lit "20250723_1/1kohm_300Pa_processed.csv") None false
                         [saved])
                  (fst (try_block env (lit "20250723_1/1kohm_300Pa_hoden.csv")
                                  1000 300))).
  { right. left. vm_compute. reflexivity. }
  assert (Hn : Forall (fun fields => List.length fields = 6%nat) na_records).
  { repeat constructor. }
  split; [exact Hw|]. split; [exact Hn|]. intros float_format.
  pose proof (other_fields_unchanged_unless_na env
                (lit "20250723_1/1kohm_300Pa_hoden.csv") 1000 300 6 na_records
                _ _ _ _ eq_refl Hn Hw) as HF.
  change (filter (fun fields => survives env (map read_field fields)) na_records)
    with na_records in HF.
  inversion HF as [|? fields ? ? (_ & Hother & _) _]; subst.
  split; [|split].
  - exact (Hother float_format 0%nat (lit "12:00:00")
             ltac:(discriminate) ltac:(discriminate) eq_refl).
  - exact (Hother float_format 2%nat (lit "NA")
             ltac:(discriminate) ltac:(discriminate) eq_refl).
  - exact (Hother float_format 3%nat (lit "0")
             ltac:(discriminate) ltac:(discriminate) eq_refl).
Defined.

(** ** [str.replace] *)

Lemma starts_with_app (p t : str) : starts_with p (p ++ t) = true.
Proof.
  induction p as [|a p IH]; simpl; [reflexivity|].
  rewrite Ascii.eqb_refl. exact IH.
Qed.

Lemma starts_with_true (p s : str) :
  starts_with p s = true -> exists t, s = p ++ t.
Proof.
  revert s. induction p as [|a p IH]; intros s H; simpl in *.
  - exists s. reflexivity.
  - destruct s as [|b s]; [discriminate|].
    apply andb_true_iff in H. destruct H as [E H]. apply Ascii.eqb_eq in E.
    subst b. destruct (IH s H) as [t ->]. exists t. reflexivity.
Qed.

Lemma replace_from_skip old new (l t : str) :
  replace_from old new (List.length l) (l ++ t) = replace_from old new 0 t.
Proof. induction l as [|a l IH]; simpl; [reflexivity|exact IH]. Qed.

(** Where [old] occurs in [stem ++ old] at the end only, [replace] changes
    the suffix and nothing else. *)
Lemma str_replace_suffix (old new stem : str) :
  old <> [] ->
  (forall a b, stem ++ old = a ++ old ++ b -> b = []) ->
  str_replace (stem ++ old) old new = stem ++ new.
Proof.
  intros Hold. unfold str_replace.
  induction stem as [|c stem IH]; intros Honce.
  - destruct old as [|c old']; [congruence|].
    cbn [app replace_from].
    pose proof (starts_with_app (c :: old') []) as S. rewrite app_nil_r in S.
    rewrite S.
    replace (List.length (c :: old') - 1)%nat with (List.length old')
      by (cbn [List.length]; lia).
    pose proof (replace_from_skip (c :: old') new old' []) as K.
    rewrite app_nil_r in K. rewrite K. cbn [replace_from]. apply app_nil_r.
  - cbn [app replace_from].
    destruct (starts_with old (c :: stem ++ old)) eqn:S.
    + exfalso. apply starts_with_true in S. destruct S as [t Ht].
      assert (t = []) by (apply (Honce [] t); exact Ht). subst t.
      rewrite app_nil_r in Ht. apply (f_equal (@List.length ascii)) in Ht.
      cbn [List.length] in Ht. rewrite length_app in Ht. lia.
    + f_equal. apply IH. intros a b E. apply (Honce (c :: a) b).
      cbn [app]. rewrite E. reflexivity.
Qed.

(** For a path that holds [_hoden.csv] as its suffix and nowhere else, the
    output path is the path with the suffix changed to [_processed.csv]. *)
Lemma output_filepath_suffix (stem : str) :
  (forall a b, stem ++ lit "_hoden.csv" = a ++ lit "_hoden.csv" ++ b -> b = []) ->
  output_filepath (stem ++ lit "_hoden.csv") = stem ++ lit "_processed.csv".
Proof.
  intros H. unfold output_filepath. apply str_replace_suffix; [discriminate|exact H].
Qed.

(** The table of a file that comes through the [try] block is written once,
    at [output_filepath], without header and without index: the cleaned
    rows, each with the current as one more cell. *)
Lemma per_file_output env filepath R P evs processed :
  try_block env filepath R P = (evs, Ok processed) ->
  exists df,
    read_csv env filepath = Ok df
    /\ filter (fun e => match e with ToCsv _ _ _ _ => true | _ => false end) evs
       = [ToCsv (output_filepath filepath) None false
                (map (fun r => r ++ [VNum (row_current R r)]) (cleaned env df))].
Proof.
  intros H. destruct (try_block_ok _ _ _ _ _ _ H) as (df & Hread & -> & _).
  exists df. split; [exact Hread|reflexivity].
Qed.

(** *** Claim C9 *)

(** C9 at a file name that holds [_hoden.csv] twice: [replace] changes both
    occurrences, and the file is written under a name that is not the name
    of the input with its suffix changed. *)
Lemma output_filepath_replaces_every_occurrence :
  let env := sample_env [] (fun _ => Ok two_rows) in
  let filepath := lit "20250723_1/10kohm_300Pa_hoden.csv_v2_hoden.csv" in
  filepath = lit "20250723_1/10kohm_300Pa_hoden.csv_v2" ++ lit "_hoden.csv"
  /\ output_filepath filepath
     = lit "20250723_1/10kohm_300Pa_processed.csv_v2_processed.csv"
  /\ output_filepath filepath
     <> lit "20250723_1/10kohm_300Pa_hoden.csv_v2" ++ lit "_processed.csv"
  /\ In (ToCsv (lit "20250723_1/10kohm_300Pa_processed.csv_v2_processed.csv")
               None false (map (saved_row 10000) (cleaned env two_rows)))
        (fst (try_block env filepath 10000 300)).
Proof.
  intros env filepath. split; [reflexivity|]. split; [reflexivity|].
  split; [vm_compute; discriminate|]. right. left. reflexivity.
Qed.

(** * Further properties of the script *)

(** ** The filename extractor *)

Lemma os_path_basename_plain (base : str) :
  existsb is_sep base = false -> os_path_basename base = base.
Proof.
  destruct base as [|a base]; [reflexivity|]. cbn [existsb os_path_basename].
  intros H. apply orb_false_iff in H. destruct H as [Ha Hb].
  rewrite Hb, Ha. reflexivity.
Qed.

Lemma os_path_basename_dir (dir base : str) :
  existsb is_sep base = false ->
  os_path_basename (dir ++ "/"%char :: base) = base.
Proof.
  intros Hb. induction dir as [|a dir IH]; cbn [app os_path_basename].
  - rewrite Hb. reflexivity.
  - rewrite existsb_app. cbn [existsb]. rewrite orb_true_r. exact IH.
Qed.

(** X1: the folder of a path plays no part in the extraction.  Whatever the
    folders before the last ['/'] are called (a folder [300Pa_runs], say),
    the extractor reads the file name and nothing else. *)
Theorem extraction_ignores_folder :
  forall (dir base : str) (pattern : regex) (unit_map : dict),
    existsb is_sep base = false ->
    parse_value_from_filename (dir ++ "/"%char :: base) pattern unit_map
    = parse_value_from_filename base pattern unit_map.
Proof.
  intros dir base pattern unit_map Hb. unfold parse_value_from_filename.
  rewrite (os_path_basename_dir dir base Hb), (os_path_basename_plain base Hb).
  reflexivity.
Qed.

Lemma extraction_ignores_folder_witness :
  existsb is_sep (lit "10kohm_hoden.csv") = false
  /\ parse_value_from_filename (lit "300Pa_runs/2Mohm" ++ "/"%char :: lit "10kohm_hoden.csv")
       pat_pressure no_units
     = parse_value_from_filename (lit "10kohm_hoden.csv") pat_pressure no_units
  /\ parse_value_from_filename (lit "10kohm_hoden.csv") pat_pressure no_units
     = Ok None.
Proof.
  split; [reflexivity|]. split; [|reflexivity].
  apply (extraction_ignores_folder (lit "300Pa_runs/2Mohm") (lit "10kohm_hoden.csv")).
  reflexivity.
Defined.

(** X2: on no file name does either of the two extractions of the loop
    raise, whatever the unit table of the second: the first group of both
    patterns always takes part in a match and holds digits, which [int]
    reads.  (For a pattern without a group the same function does raise.) *)
Theorem extraction_never_raises :
  forall (filepath : str) (unit_map : dict),
    (exists pressure,
        parse_value_from_filename filepath pat_pressure no_units = Ok pressure)
    /\ (exists resistance,
          parse_value_from_filename filepath pat_resistance unit_map
          = Ok resistance)
    /\ parse_value_from_filename (lit "300Pa") [IPlus CDigit] no_units
       = Raise IndexError.
Proof.
  intros filepath unit_map. split; [|split].
  - eexists. apply parse_pressure_spec.
  - eexists. apply parse_resistance_spec.
  - reflexivity.
Qed.

(** *** The pressure pattern *)

Lemma pressure_here_app x n y :
  x <> [] -> no_digit_at_end x -> is_digit n = true ->
  pressure_here (x ++ n :: y) = pressure_here x.
Proof.
  intros Hne Hend Hn. unfold pressure_here.
  destruct (digits_app_nondigit x (n :: y) (no_digit_at_end_nondigit x Hne Hend))
    as [-> ->].
  destruct (digits_of x) as [|a d]; [reflexivity|].
  assert (HP : Ascii.eqb n "P" = false) by (apply digit_not_char; auto).
  assert (Ha : Ascii.eqb n "a" = false) by (apply digit_not_char; auto).
  destruct (after_digits x) as [|p [|q t]]; cbn [app].
  - rewrite HP. destruct y; reflexivity.
  - rewrite Ha, andb_false_r. reflexivity.
  - reflexivity.
Qed.

Lemma pressure_here_tag (d : str) post :
  d <> [] -> forallb is_digit d = true ->
  pressure_here (d ++ lit "Pa" ++ post) = Some d.
Proof.
  intros Hne Hd. unfold pressure_here.
  destruct (digits_of_app_stop d (lit "Pa" ++ post) Hd) as [-> ->].
  - intros a t' E. inversion E; subst. reflexivity.
  - destruct d; [congruence|reflexivity].
Qed.

Lemma first_pressure_leftmost pre (d : str) post :
  d <> [] -> forallb is_digit d = true ->
  no_digit_at_end pre -> first_pressure pre = None ->
  first_pressure (pre ++ d ++ lit "Pa" ++ post) = Some d.
Proof.
  intros Hne Hd. induction pre as [|a pre IH]; intros Hend Hnone.
  - cbn [app]. pose proof (pressure_here_tag d post Hne Hd) as Hh.
    destruct (d ++ lit "Pa" ++ post) eqn:E.
    + destruct d; [congruence|discriminate].
    + cbn [first_pressure]. rewrite Hh. reflexivity.
  - cbn [first_pressure] in Hnone.
    destruct (pressure_here (a :: pre)) eqn:Hh; [discriminate|].
    destruct d as [|n d']; [congruence|].
    cbn [forallb] in Hd. apply andb_true_iff in Hd. destruct Hd as [Hn Hd'].
    change ((a :: pre) ++ (n :: d') ++ lit "Pa" ++ post)
      with (a :: (pre ++ (n :: d') ++ lit "Pa" ++ post)).
    cbn [first_pressure].
    change (a :: (pre ++ (n :: d') ++ lit "Pa" ++ post))
      with ((a :: pre) ++ n :: (d' ++ lit "Pa" ++ post)).
    rewrite pressure_here_app; [|discriminate|exact Hend|exact Hn].
    rewrite Hh. apply IH.
    + eapply no_digit_at_end_tail; eauto.
    + exact Hnone.
Qed.

Lemma search_none_first_pressure s :
  re_search pat_pressure s = None -> first_pressure s = None.
Proof.
  unfold re_search. intros H. pose proof (search_pat_pressure s 0) as E.
  rewrite H in E. destruct (first_pressure s); [discriminate|reflexivity].
Qed.

(** X3: the pressure of a file is the number before the leftmost [Pa] that
    follows digits.  When the basename is [pre ++ N ++ "Pa" ++ post], [N] a
    whole run of digits and no match inside [pre], the extractor returns the
    integer [N], whatever unit table it is given: the pattern has one group,
    and the table is never looked at. *)
Theorem parse_pressure_leftmost :
  forall (filename pre n post : str) (unit_map : dict),
    os_path_basename filename = pre ++ n ++ lit "Pa" ++ post ->
    n <> [] -> forallb is_digit n = true ->
    no_digit_at_end pre ->
    re_search pat_pressure pre = None ->
    parse_value_from_filename filename pat_pressure unit_map
    = Ok (Some (int_digits n))
    /\ 0 <= int_digits n.
Proof.
  intros filename pre n post unit_map Hbase Hne Hd Hend Hpre.
  split; [|apply int_digits_nonneg; exact Hd].
  assert (F : first_pressure (os_path_basename filename) = Some n).
  { rewrite Hbase. apply first_pressure_leftmost; auto.
    apply search_none_first_pressure; exact Hpre. }
  unfold parse_value_from_filename, re_search.
  pose proof (search_pat_pressure (os_path_basename filename) 0) as H.
  rewrite F in H.
  destruct (search_from pat_pressure (os_path_basename filename) 0) as [m|];
    [|discriminate].
  inversion H as [Hg]. unfold group. rewrite Hg.
  cbn [ngroups pat_pressure filter List.length Nat.leb Nat.ltb bind assoc_nat Nat.eqb].
  rewrite (py_int_digits _ Hne Hd). reflexivity.
Qed.

Lemma parse_pressure_leftmost_witness :
  os_path_basename (lit "20250723_1/10kohm_300Pa_hoden.csv")
    = lit "10kohm_" ++ lit "300" ++ lit "Pa" ++ lit "_hoden.csv"
  /\ parse_value_from_filename (lit "20250723_1/10kohm_300Pa_hoden.csv")
       pat_pressure [(lit "P", 1000)] = Ok (Some (int_digits (lit "300")))
  /\ int_digits (lit "300") = 300.
Proof.
  split; [reflexivity|]. split; [|reflexivity].
  apply (parse_pressure_leftmost (lit "20250723_1/10kohm_300Pa_hoden.csv")
           (lit "10kohm_") (lit "300") (lit "_hoden.csv") [(lit "P", 1000)]);
    [reflexivity | discriminate | reflexivity | | reflexivity].
  apply (no_digit_at_end_snoc (lit "10kohm") "_"). reflexivity.
Defined.

(** ** The row filter *)

(** X4: the timestamp filter keeps a cell exactly when it is a string of the
    shape [dd:dd:dd], alone or followed by one newline.  No row with such a
    first field is lost at the filter, and a missing first field (NaN) is
    always filtered out. *)
Theorem timestamp_filter_exact :
  forall v : value,
    str_match time_format_regex v = true
    <-> exists ts, v = VStr ts /\ (is_hms ts = true \/ is_hms_newline ts = true).
Proof.
  intros v. split.
  - destruct v as [ts|x]; [|discriminate]. rewrite str_match_time.
    intros H. apply orb_true_iff in H. eauto.
  - intros (ts & -> & H). rewrite str_match_time. apply orb_true_iff. exact H.
Qed.

(** ** Tables that lack a voltage column *)

(** X5: a table with fewer than six columns never yields an output.  The
    [try] block ends with the KeyError of the first of the columns 0, 1, 5
    that is missing, nothing is written, and the loop prints the error and
    keeps the collected tables as they were. *)
Theorem narrow_table_skipped :
  forall env cfg filepath acc r p df,
    parse_value_from_filename filepath pat_pressure no_units = Ok (Some p) ->
    parse_value_from_filename filepath pat_resistance ohm_units = Ok (Some r) ->
    not_target (TARGET_PRESSURE cfg) (Some p) = false ->
    read_csv env filepath = Ok df ->
    (ncols df <= COL_V_CH2)%nat ->
    let missing :=
      if (ncols df =? 0)%nat then 0%nat
      else if (ncols df <=? COL_V_CH1)%nat then COL_V_CH1 else COL_V_CH2 in
    snd (try_block env filepath r p) = Raise (KeyError missing)
    /\ forallb (fun e => negb (is_write e)) (fst (try_block env filepath r p)) = true
    /\ exists evs,
         loop_body env cfg filepath acc
         = (evs ++ [PrintError filepath (KeyError missing)], Ok acc)
         /\ forallb (fun e => negb (is_write e)) evs = true.
Proof.
  intros env cfg filepath acc r p df Hp Hr Ht Hread Hn missing.
  assert (E : try_block env filepath r p
              = (if (ncols df =? 0)%nat then []
                 else [PrintFiltered (List.length (rows df))
                         (List.length (filter timestamped (rows df)))],
                 Raise (KeyError missing))).
  { rewrite try_block_eq, Hread. cbv zeta. unfold missing.
    unfold COL_V_CH1, COL_V_CH2 in *.
    destruct (ncols df) as [|[|[|[|[|[|n]]]]]]; try reflexivity. lia. }
  rewrite (loop_body_eq env cfg filepath acc (Some p) (Some r) Hp Hr), Ht, E.
  cbn [fst snd]. split; [reflexivity|]. split.
  - destruct (ncols df =? 0)%nat; reflexivity.
  - exists (PrintProcessing filepath
            :: if (ncols df =? 0)%nat then []
               else [PrintFiltered (List.length (rows df))
                       (List.length (filter timestamped (rows df)))]).
    split; [reflexivity|]. destruct (ncols df =? 0)%nat; reflexivity.
Qed.

Lemma narrow_table_skipped_witness :
  let env := sample_env [] (fun _ => Ok narrow_table) in
  let filepath := lit "20250723_1/10kohm_300Pa_hoden.csv" in
  read_csv env filepath = Ok narrow_table
  /\ snd (try_block env filepath 10000 300) = Raise (KeyError COL_V_CH2)
  /\ loop_body env (MkConfig (lit "20250723_1") (Some 300)) filepath []
     = ([PrintProcessing filepath; PrintFiltered 1 1;
         PrintError filepath (KeyError COL_V_CH2)], Ok []).
Proof.
  intros env filepath. split; [reflexivity|].
  destruct (narrow_table_skipped env (MkConfig (lit "20250723_1") (Some 300))
              filepath [] 10000 300 narrow_table)
    as (Hraise & _ & _);
    [reflexivity | reflexivity | reflexivity | reflexivity
    | unfold COL_V_CH2; cbn; lia |].
  split; [exact Hraise | reflexivity].
Defined.

(** ** The files are processed one by one *)

Lemma loop_body_append env cfg filepath acc :
  loop_body env cfg filepath acc
  = let (evs, r) := loop_body env cfg filepath [] in
    (evs, match r with
          | Ok added => Ok (acc ++ added)
          | Raise e => Raise e
          end).
Proof.
  destruct (parse_pressure_total filepath) as [pressure Hp].
  destruct (parse_resistance_total filepath) as [resistance Hr].
  rewrite (loop_body_eq env cfg filepath acc pressure resistance Hp Hr).
  rewrite (loop_body_eq env cfg filepath [] pressure resistance Hp Hr).
  destruct (not_target (TARGET_PRESSURE cfg) pressure);
    [rewrite app_nil_r; reflexivity|].
  destruct resistance as [r|]; [|rewrite app_nil_r; reflexivity].
  destruct pressure as [p|]; [|rewrite app_nil_r; reflexivity].
  destruct (try_block env filepath r p) as [evs [df|e]];
    [reflexivity|rewrite app_nil_r; reflexivity].
Qed.

Lemma for_files_append env cfg csv_files :
  forall acc evs added,
    for_files env cfg csv_files [] = (evs, Ok added) ->
    for_files env cfg csv_files acc = (evs, Ok (acc ++ added)).
Proof.
  induction csv_files as [|f rest IH]; intros acc evs added H.
  - inversion H. rewrite app_nil_r. reflexivity.
  - destruct (loop_body_total env cfg f []) as (ev1 & a1 & B).
    rewrite (for_files_cons env cfg f rest [] ev1 a1 B) in H.
    destruct (for_files_total env cfg rest []) as (ev2 & a2 & R).
    rewrite (IH a1 ev2 a2 R) in H. inversion H; subst.
    assert (B' : loop_body env cfg f acc = (ev1, Ok (acc ++ a1))).
    { rewrite loop_body_append, B. reflexivity. }
    rewrite (for_files_cons env cfg f rest acc ev1 (acc ++ a1) B').
    rewrite (IH (acc ++ a1) ev2 a2 R), app_assoc. reflexivity.
Qed.

(** X6: the files share no state but the list they append to.  A batch over
    the files [l1 ++ l2] prints and writes what the batch over [l1] does and
    then what the batch over [l2] does, and collects the tables of the first
    followed by the tables of the second; started from tables already
    collected, a batch leaves them in place and appends its own. *)
Theorem batch_of_concatenation :
  forall env cfg l1 l2 acc,
    exists evs1 t1 evs2 t2,
      for_files env cfg l1 [] = (evs1, Ok t1)
      /\ for_files env cfg l2 [] = (evs2, Ok t2)
      /\ for_files env cfg (l1 ++ l2) [] = (evs1 ++ evs2, Ok (t1 ++ t2))
      /\ for_files env cfg (l1 ++ l2) acc
         = (evs1 ++ evs2, Ok (acc ++ t1 ++ t2)).
Proof.
  intros env cfg l1 l2 acc.
  destruct (for_files_total env cfg l2 []) as (evs2 & t2 & H2).
  assert (G : exists evs1 t1,
             for_files env cfg l1 [] = (evs1, Ok t1)
             /\ for_files env cfg (l1 ++ l2) [] = (evs1 ++ evs2, Ok (t1 ++ t2))).
  { induction l1 as [|f l1 IH].
    - exists [], []. split; [reflexivity|exact H2].
    - destruct IH as (ev & t & H1 & H12).
      destruct (loop_body_total env cfg f []) as (ev0 & a0 & B).
      exists (ev0 ++ ev), (a0 ++ t). split.
      + rewrite (for_files_cons env cfg f l1 [] ev0 a0 B).
        rewrite (for_files_append env cfg l1 a0 ev t H1). reflexivity.
      + cbn [app]. rewrite (for_files_cons env cfg f (l1 ++ l2) [] ev0 a0 B).
        rewrite (for_files_append env cfg (l1 ++ l2) a0 _ _ H12).
        rewrite <- !app_assoc. reflexivity. }
  destruct G as (evs1 & t1 & H1 & H12).
  exists evs1, t1, evs2, t2. repeat split; auto.
  apply for_files_append. exact H12.
Qed.

(** What one turn adds to the collected tables: nothing, or the table of
    its file, whose rows carry the resistance and the pressure read from the
    name of the file. *)
Lemma loop_body_added env cfg filepath evs added :
  loop_body env cfg filepath [] = (evs, Ok added) ->
  added = []
  \/ exists r p df,
       parse_value_from_filename filepath pat_pressure no_units = Ok (Some p)
       /\ parse_value_from_filename filepath pat_resistance ohm_units = Ok (Some r)
       /\ not_target (TARGET_PRESSURE cfg) (Some p) = false
       /\ read_csv env filepath = Ok df
       /\ added = [map (processed_row r p) (cleaned env df)]
       /\ evs = [PrintProcessing filepath;
                 PrintFiltered (List.length (rows df))
                               (List.length (filter timestamped (rows df)));
                 ToCsv (output_filepath filepath) None false
                       (map (saved_row r) (cleaned env df));
                 PrintSaved (output_filepath filepath)].
Proof.
  destruct (parse_pressure_total filepath) as [pressure Hp].
  destruct (parse_resistance_total filepath) as [resistance Hr].
  rewrite (loop_body_eq env cfg filepath [] pressure resistance Hp Hr).
  destruct (not_target (TARGET_PRESSURE cfg) pressure) eqn:T;
    [intros H; inversion H; auto|].
  destruct resistance as [r|]; [|intros H; inversion H; auto].
  destruct pressure as [p|]; [|intros H; inversion H; auto].
  destruct (try_block env filepath r p) as [ev [t|e]] eqn:B;
    [|intros H; inversion H; auto].
  intros H. inversion H; subst. right.
  destruct (try_block_ok _ _ _ _ _ _ B) as (df & Hread & -> & ->).
  exists r, p, df. repeat split; auto.
Qed.

(** X7: every table the loop collects is the table of one of the files, and
    each of its rows carries the resistance and the pressure that the
    extractor reads from the name of that file; under a target pressure,
    that pressure is the target. *)
Theorem collected_rows_provenance :
  forall env cfg csv_files evs all_processed_data,
    for_files env cfg csv_files [] = (evs, Ok all_processed_data) ->
    Forall
      (fun table =>
         exists filepath r p,
           In filepath csv_files
           /\ parse_value_from_filename filepath pat_pressure no_units
              = Ok (Some p)
           /\ parse_value_from_filename filepath pat_resistance ohm_units
              = Ok (Some r)
           /\ (forall t, TARGET_PRESSURE cfg = Some t -> p = t)
           /\ Forall (fun row => resistance_ohm row = r /\ pressure_Pa row = p)
                     table)
      all_processed_data.
Proof.
  intros env cfg csv_files. induction csv_files as [|f rest IH]; intros evs acc H.
  - inversion H. constructor.
  - destruct (loop_body_total env cfg f []) as (ev1 & a1 & B).
    rewrite (for_files_cons env cfg f rest [] ev1 a1 B) in H.
    destruct (for_files_total env cfg rest []) as (ev2 & a2 & R).
    rewrite (for_files_append env cfg rest a1 ev2 a2 R) in H.
    inversion H; subst. apply Forall_app. split.
    + destruct (loop_body_added env cfg f ev1 a1 B)
        as [->|(r & p & df & Hp & Hr & Ht & _ & -> & _)]; [constructor|].
      constructor; [|constructor].
      exists f, r, p. split; [left; reflexivity|]. split; [exact Hp|].
      split; [exact Hr|]. split.
      * intros t E. rewrite E in Ht. cbn in Ht.
        apply negb_false_iff, Z.eqb_eq in Ht. exact Ht.
      * apply Forall_forall. intros row Hrow. apply in_map_iff in Hrow.
        destruct Hrow as (x & <- & _). split; reflexivity.
    + eapply Forall_impl; [|exact (IH ev2 a2 R)].
      intros table (fp & r & p & Hin & Rest). exists fp, r, p.
      split; [right; exact Hin|exact Rest].
Qed.

Lemma collected_rows_provenance_witness :
  let env := sample_env [] (fun _ => Ok two_rows) in
  let cfg := MkConfig (lit "20250723_1") (Some 300) in
  let csv_files := [lit "20250723_1/10kohm_500Pa_hoden.csv";
                    lit "20250723_1/2Mohm_300Pa_hoden.csv"] in
  snd (for_files env cfg csv_files [])
  = Ok [[MkProcessed 1%float (2 / 2000000 - 1 / 10000000)%float 2000000 300;
         MkProcessed 1%float (2 / 2000000 - 1 / 10000000)%float 2000000 300]]
  /\ Forall (fun table =>
               exists filepath r p,
                 In filepath csv_files
                 /\ parse_value_from_filename filepath pat_pressure no_units
                    = Ok (Some p)
                 /\ parse_value_from_filename filepath pat_resistance ohm_units
                    = Ok (Some r)
                 /\ (forall t, TARGET_PRESSURE cfg = Some t -> p = t)
                 /\ Forall (fun row => resistance_ohm row = r /\ pressure_Pa row = p)
                           table)
            [[MkProcessed 1%float (2 / 2000000 - 1 / 10000000)%float 2000000 300;
              MkProcessed 1%float (2 / 2000000 - 1 / 10000000)%float 2000000 300]].
Proof.
  intros env cfg csv_files. split; [vm_compute; reflexivity|].
  apply (collected_rows_provenance env cfg csv_files
           (fst (for_files env cfg csv_files []))).
  vm_compute. reflexivity.
Defined.

(** ** The per-file outputs and the collected tables agree *)

Lemma Forall2_map_map {A B C} (R : B -> C -> Prop) (f : A -> B) (g : A -> C)
    (l : list A) :
  (forall x, In x l -> R (f x) (g x)) -> Forall2 R (map f l) (map g l).
Proof.
  induction l as [|a l IH]; intros H; simpl; constructor.
  - apply H. left. reflexivity.
  - apply IH. intros x Hx. apply H. right. exact Hx.
Qed.

Lemma loop_body_writes env cfg filepath evs added :
  loop_body env cfg filepath [] = (evs, Ok added) ->
  Forall2
    (fun w table =>
       fst w = output_filepath filepath
       /\ Forall2
            (fun saved collected =>
               cell COL_V_CH1 saved = VNum (voltage_ch1_V collected)
               /\ last saved NaN = VNum (final_current_A collected))
            (snd w) table)
    (per_file_writes evs) added.
Proof.
  intros B.
  destruct (loop_body_added env cfg filepath evs added B)
    as [->|(r & p & df & _ & _ & _ & _ & -> & ->)].
  - (* nothing added: the trace holds no per-file output *)
    destruct (parse_pressure_total filepath) as [pressure Hp].
    destruct (parse_resistance_total filepath) as [resistance Hr].
    rewrite (loop_body_eq env cfg filepath [] pressure resistance Hp Hr) in B.
    destruct (not_target (TARGET_PRESSURE cfg) pressure);
      [inversion B; constructor|].
    destruct resistance as [r|]; [|inversion B; constructor].
    destruct pressure as [p|]; [|inversion B; constructor].
    pose proof (try_block_eq env filepath r p) as E.
    destruct (try_block env filepath r p) as [ev [t|e]]; [inversion B|].
    inversion B; subst evs. clear B.
    destruct (read_csv env filepath) as [df|e0]; [|inversion E; constructor].
    cbv zeta in E.
    destruct (0 <? ncols df)%nat; [|inversion E; constructor].
    destruct (COL_V_CH1 <? ncols df)%nat; [|inversion E; constructor].
    destruct (COL_V_CH2 <? ncols df)%nat; [|inversion E; constructor].
    destruct (to_csv env (output_filepath filepath)); inversion E. constructor.
  - cbn. constructor; [|constructor]. split; [reflexivity|]. cbn [snd].
    apply Forall2_map_map. intros x Hx.
    destruct (cleaned_row_facts env df x Hx) as (_ & (v1 & E1 & _) & _ & L).
    unfold saved_row, processed_row. cbn [voltage_ch1_V final_current_A].
    rewrite last_last. split; [|reflexivity].
    rewrite cell_app_l by (unfold COL_V_CH1, COL_V_CH2 in *; lia).
    rewrite E1. reflexivity.
Qed.

(** X8: the loop collects a table exactly for the files it writes an output
    for, in the same order, and the two agree row by row: the voltage of
    channel 1 and the current of the row collected for the summaries and the
    plot are the cell of column 1 and the last cell of the row written. *)
Theorem outputs_match_collected :
  forall env cfg csv_files evs all_processed_data,
    for_files env cfg csv_files [] = (evs, Ok all_processed_data) ->
    Forall2
      (fun w table =>
         (exists filepath, In filepath csv_files /\ fst w = output_filepath filepath)
         /\ Forall2
              (fun saved collected =>
                 cell COL_V_CH1 saved = VNum (voltage_ch1_V collected)
                 /\ last saved NaN = VNum (final_current_A collected))
              (snd w) table)
      (per_file_writes evs) all_processed_data.
Proof.
  intros env cfg csv_files. induction csv_files as [|f rest IH]; intros evs acc H.
  - inversion H. constructor.
  - destruct (loop_body_total env cfg f []) as (ev1 & a1 & B).
    rewrite (for_files_cons env cfg f rest [] ev1 a1 B) in H.
    destruct (for_files_total env cfg rest []) as (ev2 & a2 & R).
    rewrite (for_files_append env cfg rest a1 ev2 a2 R) in H.
    inversion H; subst. rewrite per_file_writes_app. apply Forall2_app.
    + eapply Forall2_impl; [|exact (loop_body_writes env cfg f ev1 a1 B)].
      intros w table [Hpath Hrows]. split; [|exact Hrows].
      exists f. split; [left; reflexivity|exact Hpath].
    + eapply Forall2_impl; [|exact (IH ev2 a2 R)].
      intros w table [(fp & Hin & Hpath) Hrows]. split; [|exact Hrows].
      exists fp. split; [right; exact Hin|exact Hpath].
Qed.

Lemma outputs_match_collected_witness :
  let env := sample_env [] (fun _ => Ok two_rows) in
  let cfg := MkConfig (lit "20250723_1") None in
  let csv_files := [lit "20250723_1/10kohm_hoden.csv";
                    lit "20250723_1/1kohm_300Pa_hoden.csv"] in
  map fst (per_file_writes (fst (for_files env cfg csv_files [])))
  = [lit "20250723_1/1kohm_300Pa_processed.csv"]
  /\ List.length (per_file_writes (fst (for_files env cfg csv_files [])))
     = List.length [[MkProcessed 1%float 0.0019999%float 1000 300;
                     MkProcessed 1%float 0.0019999%float 1000 300]].
Proof.
  intros env cfg csv_files. split; [reflexivity|].
  eapply Forall2_length.
  apply (outputs_match_collected env cfg csv_files
           (fst (for_files env cfg csv_files []))).
  vm_compute. reflexivity.
Defined.

(** ** How a run ends *)

Lemma write_summaries_no_plot env cfg grouped :
  plots_saved (fst (write_summaries env cfg grouped)) = [].
Proof.
  induction grouped as [|[k g] grouped IH]; [reflexivity|].
  cbn [write_summaries]. unfold write_csv.
  destruct (to_csv env (summary_filepath cfg k)); [reflexivity|].
  rewrite !abind_emit.
  destruct (write_summaries env cfg grouped) as [evs r]. cbn [fst] in *.
  exact IH.
Qed.







(** The two ways a run stops before the loop. *)
Lemma analyze_experiment_data_early env cfg :
  (TARGET_FOLDER cfg <> [] -> isdir env (TARGET_FOLDER cfg) = false ->
   analyze_experiment_data env cfg
   = ([PrintFolderNotFound (TARGET_FOLDER cfg)], Ok tt))
  /\ (TARGET_FOLDER cfg = [] \/ isdir env (TARGET_FOLDER cfg) = true ->
      glob env (file_pattern cfg) = [] ->
      analyze_experiment_data env cfg
      = ([PrintNoFiles (lit "*_hoden.csv")], Ok tt)).
Proof.
  unfold analyze_experiment_data, file_pattern, analyze_files. split.
  - intros Hne Hd. destruct (TARGET_FOLDER cfg); [congruence|].
    rewrite Hd. reflexivity.
  - intros Hdir Hg. destruct (TARGET_FOLDER cfg) as [|a t] eqn:F.
    + rewrite Hg. reflexivity.
    + destruct Hdir as [Hd|Hd]; [discriminate|]. rewrite Hd. cbn [negb].
      rewrite Hg.
      assert (B : os_path_basename (os_path_join (a :: t) (lit "*_hoden.csv"))
                  = lit "*_hoden.csv").
      { unfold os_path_join.
        destruct (is_sep (last (a :: t) "/"%char)) eqn:S.
        - destruct (exists_last (l := a :: t)) as (u & c & U); [discriminate|].
          rewrite U in *. rewrite last_last in S.
          apply Ascii.eqb_eq in S. subst c.
          rewrite <- app_assoc. apply os_path_basename_dir. reflexivity.
        - apply os_path_basename_dir. reflexivity. }
      rewrite B. reflexivity.
Qed.

(** X9: a run that finds no folder, or no file in it, prints one diagnostic
    and stops: nothing is written, and the run ends normally.  The second
    diagnostic names the pattern [*_hoden.csv] whatever the folder is, and
    with an empty [TARGET_FOLDER] the folder is not checked at all.  So a
    run that writes anything has found the folder and a file in it. *)
Theorem early_stop_writes_nothing :
  forall env cfg,
    (TARGET_FOLDER cfg <> [] -> isdir env (TARGET_FOLDER cfg) = false ->
     analyze_experiment_data env cfg
     = ([PrintFolderNotFound (TARGET_FOLDER cfg)], Ok tt))
    /\ (TARGET_FOLDER cfg = [] \/ isdir env (TARGET_FOLDER cfg) = true ->
        glob env (file_pattern cfg) = [] ->
        analyze_experiment_data env cfg
        = ([PrintNoFiles (lit "*_hoden.csv")], Ok tt))
    /\ (existsb is_write (fst (analyze_experiment_data env cfg)) = true ->
        (TARGET_FOLDER cfg = [] \/ isdir env (TARGET_FOLDER cfg) = true)
        /\ glob env (file_pattern cfg) <> []).
Proof.
  intros env cfg. destruct (analyze_experiment_data_early env cfg) as [E1 E2].
  split; [exact E1|]. split; [exact E2|]. intros W.
  assert (Hdir : TARGET_FOLDER cfg = [] \/ isdir env (TARGET_FOLDER cfg) = true).
  { destruct (TARGET_FOLDER cfg) as [|a t] eqn:F; [left; reflexivity|].
    destruct (isdir env (a :: t)) eqn:D; [right; reflexivity|].
    rewrite E1 in W; [discriminate W|discriminate|reflexivity]. }
  split; [exact Hdir|]. intros G. rewrite (E2 Hdir G) in W. discriminate W.
Qed.

Lemma early_stop_writes_nothing_witness :
  let env := MkEnv (fun _ => false) (fun _ => [lit "20250723_1/10kohm_300Pa_hoden.csv"])
                   (fun _ => Ok two_rows) sample_to_numeric (fun _ => None)
                   (fun _ => None) in
  analyze_experiment_data env (MkConfig (lit "20250723_1") (Some 300))
  = ([PrintFolderNotFound (lit "20250723_1")], Ok tt)
  /\ existsb is_write (fst (analyze_experiment_data env (MkConfig [] (Some 300))))
     = true.
Proof.
  intros env. split; [|vm_compute; reflexivity].
  apply (early_stop_writes_nothing env (MkConfig (lit "20250723_1") (Some 300)));
    [discriminate|reflexivity].
Defined.



(** ** The plot *)

Lemma aggregate_and_plot_plot env cfg acc agg :
  aggregate_and_plot env cfg acc = (agg, Ok tt) ->
  plots_saved agg
  = [(plot_filepath cfg,
      map (fun res =>
             (res, map (fun r => (voltage_ch1_V r, final_current_A r))
                       (filter (fun r => resistance_ohm r =? res) (List.concat acc))))
          (sorted_unique (map resistance_ohm (List.concat acc))))].
Proof.
  intros H.
  destruct (aggregate_and_plot_ok_inv env cfg acc agg H) as (_ & ws & W & ->).
  pose proof (write_summaries_no_plot env cfg (groupby_pressure (List.concat acc))) as NP.
  rewrite W in NP. cbn [fst] in NP.
  change (plots_saved (PrintAggregating :: ?l)) with (plots_saved l).
  rewrite plots_saved_app, NP. reflexivity.
Qed.

(** X11: a run that reaches the aggregation and ends normally saves one
    plot, under [plot_filepath].  It has one series for each distinct
    resistance of the concatenated table, in strictly ascending order of the
    resistance; a series holds the (voltage, current) points of the rows of
    that resistance, and the points of all series together are the points of
    the table, each as often as there. *)
Theorem plot_series_by_resistance :
  forall env cfg evs all_processed_data trace,
    TARGET_FOLDER cfg = [] \/ isdir env (TARGET_FOLDER cfg) = true ->
    glob env (file_pattern cfg) <> [] ->
    for_files env cfg (glob env (file_pattern cfg)) []
    = (evs, Ok all_processed_data) ->
    all_processed_data <> [] ->
    analyze_experiment_data env cfg = (trace, Ok tt) ->
    let final_df := List.concat all_processed_data in
    let point := fun r => (voltage_ch1_V r, final_current_A r) in
    exists series,
      plots_saved trace = [(plot_filepath cfg, series)]
      /\ series
         = map (fun res =>
                  (res, map point (filter (fun r => resistance_ohm r =? res) final_df)))
               (map fst series)
      /\ StronglySorted Z.lt (map fst series)
      /\ (forall res, In res (map fst series)
                      <-> In res (map resistance_ohm final_df))
      /\ Permutation (List.concat (map snd series)) (map point final_df).
Proof.
  intros env cfg evs acc trace Hdir Hglob Hloop Hne Hrun final_df point.
  rewrite (analyze_experiment_data_eq env cfg Hdir Hglob), Hloop in Hrun.
  destruct acc as [|t acc']; [congruence|].
  destruct (aggregate_and_plot env cfg (t :: acc')) as [agg r] eqn:A.
  injection Hrun as Ht Hr. subst r.
  pose proof (for_files_quiet env cfg (glob env (file_pattern cfg)) []) as Q.
  rewrite Hloop in Q. cbn [fst] in Q.
  set (keys := sorted_unique (map resistance_ohm final_df)).
  exists (map (fun res =>
                 (res, map point (filter (fun r => resistance_ohm r =? res) final_df)))
              keys).
  assert (K : map fst (map (fun res =>
                 (res, map point (filter (fun r => resistance_ohm r =? res) final_df)))
              keys) = keys).
  { rewrite map_map. cbn [fst]. apply map_id. }
  rewrite K. split; [|split; [reflexivity|split; [apply sorted_unique_sorted|split]]].
  - rewrite <- Ht.
    match goal with
    | |- plots_saved (?x :: ?l) = _ =>
        change (plots_saved (x :: l)) with (plots_saved l)
    end.
    rewrite !plots_saved_app, (quiet_no_plot evs Q).
    rewrite (aggregate_and_plot_plot env cfg (t :: acc') agg A).
    destruct (TARGET_PRESSURE cfg); reflexivity.
  - intros res. apply sorted_unique_In.
  - rewrite map_map. cbn [snd].
    rewrite <- (map_map (fun res => filter (fun r => resistance_ohm r =? res) final_df)
                        (map point)).
    rewrite <- concat_map. apply Permutation_map.
    rewrite <- flat_map_concat_map.
    eapply Permutation_trans;
      [apply (groups_partition ProcessedRow resistance_ohm), sorted_unique_NoDup|].
    rewrite forallb_filter_id; [apply Permutation_refl|].
    apply forallb_forall. intros r Hr. apply existsb_exists.
    exists (resistance_ohm r). split; [|apply Z.eqb_refl].
    apply sorted_unique_In, in_map, Hr.
Qed.

Lemma plot_series_by_resistance_witness :
  let env := sample_env [lit "20250723_1/2Mohm_500Pa_hoden.csv";
                         lit "20250723_1/10kohm_300Pa_hoden.csv";
                         lit "20250723_1/10kohm_500Pa_hoden.csv"]
                        (fun _ => Ok two_rows) in
  let cfg := MkConfig (lit "20250723_1") None in
  snd (analyze_experiment_data env cfg) = Ok tt
  /\ exists series,
       plots_saved (fst (analyze_experiment_data env cfg))
       = [(lit "20250723_1/current_voltage_characteristics_plot_final.png", series)]
       /\ StronglySorted Z.lt (map fst series).
Proof.
  intros env cfg. split; [reflexivity|].
  destruct (plot_series_by_resistance env cfg
              (fst (for_files env cfg (glob env (file_pattern cfg)) []))
              (map (fun rp => map (processed_row (fst rp) (snd rp)) (cleaned env two_rows))
                   [(2000000, 500); (10000, 300); (10000, 500)])
              (fst (analyze_experiment_data env cfg)))
    as (series & Hp & _ & Hs & _);
    [right; reflexivity | discriminate | reflexivity | discriminate
    | reflexivity |].
  exists series. split; [exact Hp | exact Hs].
Defined.

(** ** The name of the per-file output *)

Lemma hoden_no_border k :
  (0 < k < 10)%nat -> nth k (lit "_hoden.csv") "x"%char <> "_"%char.
Proof.
  intros [H0 H10].
  do 10 (destruct k as [|k]; [try lia; cbn; discriminate|]). lia.
Qed.

Lemma replace_hoden_ends :
  forall n stem,
    (List.length stem <= n)%nat ->
    exists pre,
      replace_from (lit "_hoden.csv") (lit "_processed.csv") 0
                   (stem ++ lit "_hoden.csv")
      = pre ++ lit "_processed.csv".
Proof.
  induction n as [n IH] using (well_founded_induction Wf_nat.lt_wf).
  intros stem Hlen. destruct stem as [|c stem'].
  - exists []. reflexivity.
  - cbn [app replace_from].
    destruct (starts_with (lit "_hoden.csv") (c :: stem' ++ lit "_hoden.csv")) eqn:S.
    + apply starts_with_true in S. destruct S as [t Ht].
      change (c :: stem' ++ lit "_hoden.csv")
        with ((c :: stem') ++ lit "_hoden.csv") in Ht.
      assert (Hk : (10 <= List.length (c :: stem'))%nat).
      { destruct (Nat.le_gt_cases 10 (List.length (c :: stem'))) as [L|L]; [exact L|].
        exfalso.
        apply (hoden_no_border (List.length (c :: stem')));
          [cbn [List.length] in *; lia|].
        assert (E : nth (List.length (c :: stem'))
                        ((c :: stem') ++ lit "_hoden.csv") "x"%char
                    = nth (List.length (c :: stem'))
                          (lit "_hoden.csv" ++ t) "x"%char) by (rewrite Ht; reflexivity).
        rewrite app_nth2, Nat.sub_diag in E by lia.
        rewrite app_nth1 in E by exact L.
        rewrite <- E. reflexivity. }
      assert (F : firstn 10 (c :: stem') = lit "_hoden.csv").
      { apply (f_equal (firstn 10)) in Ht.
        rewrite firstn_app in Ht.
        replace (10 - List.length (c :: stem'))%nat with 0%nat in Ht by lia.
        rewrite firstn_O, app_nil_r in Ht. rewrite Ht.
        rewrite firstn_app. reflexivity. }
      remember (skipn 10 (c :: stem')) as rest eqn:Hrest.
      assert (Lr : List.length rest = (List.length (c :: stem') - 10)%nat)
        by (rewrite Hrest; apply length_skipn).
      pose proof (firstn_skipn 10 (c :: stem')) as FS.
      rewrite F, <- Hrest in FS.
      cbn [lit list_ascii_of_string app] in FS. injection FS as Hc Hs.
      destruct (IH (List.length rest)) with (stem := rest) as [pre Hpre];
        [cbn [List.length] in *; lia | lia |].
      exists (lit "_processed.csv" ++ pre).
      rewrite <- !app_assoc.
      replace (stem' ++ lit "_hoden.csv")
        with (lit "hoden.csv" ++ (rest ++ lit "_hoden.csv"))
        by (rewrite <- Hs; reflexivity).
      change (List.length (lit "_hoden.csv") - 1)%nat
        with (List.length (lit "hoden.csv")).
      rewrite replace_from_skip, Hpre. reflexivity.
    + destruct (IH (List.length stem')) with (stem := stem') as [pre Hpre];
        [cbn [List.length] in Hlen; lia | lia |].
      exists (c :: pre). rewrite Hpre. reflexivity.
Qed.

(** X12: the output of a file whose path ends in [_hoden.csv] is written
    under a path that ends in [_processed.csv], however often [_hoden.csv]
    occurs in the path.  So the output is never written over its input, and
    never under a name that the pattern [*_hoden.csv] finds again. *)
Theorem output_never_an_input :
  forall stem : str,
    (exists pre,
        output_filepath (stem ++ lit "_hoden.csv") = pre ++ lit "_processed.csv")
    /\ output_filepath (stem ++ lit "_hoden.csv") <> stem ++ lit "_hoden.csv"
    /\ forall other, output_filepath (stem ++ lit "_hoden.csv")
                     <> other ++ lit "_hoden.csv".
Proof.
  intros stem.
  destruct (replace_hoden_ends (List.length stem) stem (Nat.le_refl _)) as [pre Hpre].
  fold (str_replace (stem ++ lit "_hoden.csv") (lit "_hoden.csv") (lit "_processed.csv"))
    in Hpre.
  fold (output_filepath (stem ++ lit "_hoden.csv")) in Hpre.
  assert (D : forall other,
             output_filepath (stem ++ lit "_hoden.csv") <> other ++ lit "_hoden.csv").
  { intros other E. rewrite Hpre in E. apply (f_equal (@rev ascii)) in E.
    rewrite !rev_app_distr in E. cbn in E. discriminate E. }
  split; [exists pre; exact Hpre|]. split; [apply D|exact D].
Qed.

(** ** The pressure in the name of a summary file *)

Lemma uint_chars_digits (d : Decimal.uint) :
  forallb is_digit (lit (NilEmpty.string_of_uint d)) = true.
Proof. induction d; cbn; auto. Qed.

Lemma uint_chars_value (d : Decimal.uint) :
  forall acc,
    fold_left (fun acc a => 10 * acc + digit_val a)
              (lit (NilEmpty.string_of_uint d)) acc
    = acc * 10 ^ Z.of_N (DecimalPos.Unsigned.usize d)
      + Z.of_N (DecimalPos.Unsigned.of_lu (Decimal.rev d)).
Proof.
  induction d; intros acc;
    [cbn; lia | ..];
    cbn [NilEmpty.string_of_uint lit list_ascii_of_string fold_left];
    unfold Decimal.rev; cbn [Decimal.revapp];
    rewrite (DecimalPos.Unsigned.of_lu_revapp d);
    rewrite IHd;
    cbn [DecimalPos.Unsigned.usize DecimalPos.Unsigned.of_lu];
    rewrite N2Z.inj_add, N2Z.inj_mul, N2Z.inj_pow, N2Z.inj_succ;
    rewrite Z.pow_succ_r by apply N2Z.is_nonneg;
    change (digit_val "0") with 0; change (digit_val "1") with 1;
    change (digit_val "2") with 2; change (digit_val "3") with 3;
    change (digit_val "4") with 4; change (digit_val "5") with 5;
    change (digit_val "6") with 6; change (digit_val "7") with 7;
    change (digit_val "8") with 8; change (digit_val "9") with 9;
    cbn [Z.of_N N.mul N.add Pos.mul Pos.add]; ring.
Qed.

(** [int] reads back what the f-string prints. *)
Lemma int_digits_str_of_Z n :
  0 <= n ->
  str_of_Z n <> [] /\ forallb is_digit (str_of_Z n) = true
  /\ int_digits (str_of_Z n) = n.
Proof.
  intros Hn. destruct n as [|p|p]; [repeat split; discriminate| |lia].
  unfold str_of_Z. cbn [Z.to_int NilZero.string_of_int].
  pose proof (DecimalPos.Unsigned.to_uint_nonnil p) as NN.
  assert (E : NilZero.string_of_uint (Pos.to_uint p)
              = NilEmpty.string_of_uint (Pos.to_uint p)).
  { unfold NilZero.string_of_uint. destruct (Pos.to_uint p); congruence. }
  rewrite E. split; [|split].
  - destruct (Pos.to_uint p); [congruence|discriminate..].
  - apply uint_chars_digits.
  - unfold int_digits. rewrite uint_chars_value.
    rewrite <- DecimalPos.Unsigned.of_uint_alt, DecimalPos.Unsigned.of_to.
    cbn. reflexivity.
Qed.

Lemma os_path_basename_join (a b : str) :
  existsb is_sep b = false -> os_path_basename (os_path_join a b) = b.
Proof.
  intros Hb. unfold os_path_join. destruct a as [|c a].
  - apply os_path_basename_plain. exact Hb.
  - destruct (is_sep (last (c :: a) "/"%char)) eqn:S.
    + destruct (exists_last (l := c :: a)) as (u & x & U); [discriminate|].
      rewrite U in *. rewrite last_last in S.
      apply Ascii.eqb_eq in S. subst x.
      rewrite <- app_assoc. apply os_path_basename_dir. exact Hb.
    + apply os_path_basename_dir. exact Hb.
Qed.

Lemma digits_no_sep (d : str) :
  forallb is_digit d = true -> existsb is_sep d = false.
Proof.
  induction d as [|a d IH]; [reflexivity|]. cbn [forallb existsb]. intros H.
  apply andb_true_iff in H. destruct H as [Ha Hd]. rewrite (IH Hd), orb_false_r.
  unfold is_sep. apply digit_not_char; [exact Ha|reflexivity].
Qed.

Lemma parse_pressure_tagged (folder pre post : str) (p : Z) :
  0 <= p ->
  existsb is_sep pre = false -> existsb is_sep post = false ->
  no_digit_at_end pre -> first_pressure pre = None ->
  parse_value_from_filename
    (os_path_join folder (pre ++ str_of_Z p ++ lit "Pa" ++ post))
    pat_pressure no_units
  = Ok (Some p).
Proof.
  intros Hp Hpre Hpost Hend Hnone.
  destruct (int_digits_str_of_Z p Hp) as (Hne & Hd & Hv).
  rewrite parse_pressure_spec, os_path_basename_join.
  - rewrite (first_pressure_leftmost pre (str_of_Z p) post Hne Hd Hend Hnone).
    cbn [option_map]. rewrite Hv. reflexivity.
  - rewrite !existsb_app, Hpre, (digits_no_sep _ Hd), Hpost. reflexivity.
Qed.

(** X13: the pressure that names an output is read back by the extractor of
    the script.  For a pressure [p >= 0], the extraction of [(\d+)Pa] from
    the path of the summary file of [p] gives [p], and so does the
    extraction from the path of the plot when [p] is the target pressure,
    whatever [TARGET_FOLDER] is. *)
Theorem output_name_round_trip :
  forall cfg p,
    0 <= p ->
    parse_value_from_filename (summary_filepath cfg p) pat_pressure no_units
    = Ok (Some p)
    /\ (TARGET_PRESSURE cfg = Some p ->
        parse_value_from_filename (plot_filepath cfg) pat_pressure no_units
        = Ok (Some p)).
Proof.
  intros cfg p Hp. split.
  - unfold summary_filepath.
    change (lit "Pa.csv") with (lit "Pa" ++ lit ".csv").
    apply parse_pressure_tagged; try reflexivity; [exact Hp|].
    apply (no_digit_at_end_snoc (lit "summary_iv") "_"). reflexivity.
  - intros T. unfold plot_filepath. rewrite T.
    change (lit "Pa.png") with (lit "Pa" ++ lit ".png").
    apply parse_pressure_tagged; try reflexivity; [exact Hp|].
    apply (no_digit_at_end_snoc (lit "current_voltage_characteristics_plot") "_").
    reflexivity.
Qed.

Lemma output_name_round_trip_witness :
  0 <= 300
  /\ summary_filepath (MkConfig (lit "20250723_1") (Some 300)) 300
     = lit "20250723_1/summary_iv_300Pa.csv"
  /\ parse_value_from_filename (lit "20250723_1/summary_iv_300Pa.csv")
       pat_pressure no_units = Ok (Some 300).
Proof.
  split; [lia|]. split; [reflexivity|].
  destruct (output_name_round_trip (MkConfig (lit "20250723_1") (Some 300)) 300)
    as [H _]; [lia|exact H].
Defined.

(** ** A run under a target pressure *)

Lemma run_summaries env cfg evs all_processed_data trace :
  TARGET_FOLDER cfg = [] \/ isdir env (TARGET_FOLDER cfg) = true ->
  glob env (file_pattern cfg) <> [] ->
  for_files env cfg (glob env (file_pattern cfg)) [] = (evs, Ok all_processed_data) ->
  all_processed_data <> [] ->
  analyze_experiment_data env cfg = (trace, Ok tt) ->
  summaries_written trace
  = map (fun g => (summary_filepath cfg (fst g), map summary_row (snd g)))
        (groupby_pressure (List.concat all_processed_data)).
Proof.
  intros Hdir Hglob Hloop Hne Hrun.
  rewrite (analyze_experiment_data_eq env cfg Hdir Hglob), Hloop in Hrun.
  destruct all_processed_data as [|t acc']; [congruence|].
  destruct (aggregate_and_plot env cfg (t :: acc')) as [agg r] eqn:A.
  injection Hrun as Ht Hr. subst r.
  pose proof (for_files_quiet env cfg (glob env (file_pattern cfg)) []) as Q.
  rewrite Hloop in Q. cbn [fst] in Q.
  rewrite <- Ht.
  match goal with
  | |- summaries_written (?x :: ?l) = _ =>
      change (summaries_written (x :: l)) with (summaries_written l)
  end.
  rewrite !summaries_written_app, (quiet_no_summary evs Q).
  rewrite (aggregate_and_plot_ok env cfg (t :: acc') agg A).
  destruct (TARGET_PRESSURE cfg); reflexivity.
Qed.

Lemma for_files_target_rows env cfg t csv_files :
  TARGET_PRESSURE cfg = Some t ->
  forall evs acc,
    for_files env cfg csv_files [] = (evs, Ok acc) ->
    Forall (fun row => pressure_Pa row = t) (List.concat acc).
Proof.
  intros T. induction csv_files as [|f rest IH]; intros evs acc H.
  - inversion H. constructor.
  - destruct (loop_body_total env cfg f []) as (ev1 & a1 & B).
    rewrite (for_files_cons env cfg f rest [] ev1 a1 B) in H.
    destruct (for_files_total env cfg rest []) as (ev2 & a2 & R).
    rewrite (for_files_append env cfg rest a1 ev2 a2 R) in H.
    inversion H; subst. rewrite concat_app. apply Forall_app.
    split; [|exact (IH ev2 a2 R)].
    destruct (loop_body_added env cfg f ev1 a1 B)
      as [->|(r & p & df & _ & _ & Ht & _ & -> & _)]; [constructor|].
    rewrite T in Ht. cbn in Ht. apply negb_false_iff, Z.eqb_eq in Ht. subst p.
    cbn [List.concat]. rewrite app_nil_r.
    apply Forall_forall. intros row Hrow. apply in_map_iff in Hrow.
    destruct Hrow as (x & <- & _). reflexivity.
Qed.

Lemma sorted_unique_constant t l :
  Forall (fun x => x = t) l ->
  sorted_unique l = match l with [] => [] | _ => [t] end.
Proof.
  induction 1 as [|x l Hx Hl IH]; [reflexivity|]. subst x.
  cbn [sorted_unique fold_right]. fold (sorted_unique l). rewrite IH.
  destruct l; cbn [insert_unique]; [reflexivity|].
  rewrite Z.ltb_irrefl, Z.eqb_refl. reflexivity.
Qed.

(** X14: under a target pressure, a run that reaches the aggregation and
    ends normally writes at most one summary file: none when no row came
    through the cleaning, else the one of the target, which holds, for every
    row of the concatenated table and in the order of the table, the
    voltage and the current of the row. *)
Theorem target_gives_one_summary :
  forall env cfg t evs all_processed_data trace,
    TARGET_PRESSURE cfg = Some t ->
    TARGET_FOLDER cfg = [] \/ isdir env (TARGET_FOLDER cfg) = true ->
    glob env (file_pattern cfg) <> [] ->
    for_files env cfg (glob env (file_pattern cfg)) []
    = (evs, Ok all_processed_data) ->
    all_processed_data <> [] ->
    analyze_experiment_data env cfg = (trace, Ok tt) ->
    summaries_written trace
    = match List.concat all_processed_data with
      | [] => []
      | final_df =>
          [(summary_filepath cfg t,
            map (fun r => [VNum (voltage_ch1_V r); VNum (final_current_A r)])
                final_df)]
      end.
Proof.
  intros env cfg t evs acc trace T Hdir Hglob Hloop Hne Hrun.
  change (fun r => [VNum (voltage_ch1_V r); VNum (final_current_A r)])
    with summary_row.
  rewrite (run_summaries env cfg evs acc trace Hdir Hglob Hloop Hne Hrun).
  pose proof (for_files_target_rows env cfg t _ T evs acc Hloop) as P.
  unfold groupby_pressure.
  rewrite (sorted_unique_constant t (map pressure_Pa (List.concat acc)));
    [|apply Forall_map; exact P].
  destruct (List.concat acc) as [|r final_df] eqn:E; [reflexivity|].
  cbn [map fst snd].
  rewrite (forallb_filter_id (fun x => pressure_Pa x =? t) (r :: final_df));
    [reflexivity|].
  apply forallb_forall. intros x Hx.
  rewrite Forall_forall in P. apply Z.eqb_eq. apply P. exact Hx.
Qed.

Lemma target_gives_one_summary_witness :
  let env := sample_env [lit "20250723_1/10kohm_500Pa_hoden.csv";
                         lit "20250723_1/10kohm_300Pa_hoden.csv"]
                        (fun _ => Ok two_rows) in
  let cfg := MkConfig (lit "20250723_1") (Some 300) in
  snd (analyze_experiment_data env cfg) = Ok tt
  /\ map fst (summaries_written (fst (analyze_experiment_data env cfg)))
     = [lit "20250723_1/summary_iv_300Pa.csv"]
  /\ map fst (per_file_writes (fst (analyze_experiment_data env cfg)))
     = [lit "20250723_1/10kohm_300Pa_processed.csv"].
Proof.
  intros env cfg. split; [reflexivity|]. split; [|reflexivity].
  rewrite (target_gives_one_summary env cfg 300
             (fst (for_files env cfg (glob env (file_pattern cfg)) []))
             [map (processed_row 10000 300) (cleaned env two_rows)]
             (fst (analyze_experiment_data env cfg)));
    [reflexivity | reflexivity | right; reflexivity | discriminate
    | reflexivity | discriminate | reflexivity].
Defined.

(** ** The row counts of a file *)

Lemma filter_and_length {A} (p q : A -> bool) (l : list A) :
  (List.length (filter (fun x => p x && q x) l) <= List.length (filter p l)
   <= List.length l)%nat
  /\ (List.length (filter (fun x => p x && q x) l) = List.length (filter p l)
      <-> forallb (fun x => negb (p x) || q x) l = true).
Proof.
  induction l as [|a l [[IH1 IH2] IH3]]; cbn [filter forallb List.length].
  - split; [lia|tauto].
  - destruct (p a) eqn:Pa, (q a) eqn:Qa;
      cbn [andb negb orb List.length]; (split; [lia|]).
    + rewrite <- IH3. split; intros; lia.
    + split; [lia|discriminate].
    + exact IH3.
    + exact IH3.
Qed.

(** X15: for a file that comes through the [try] block, the progress line
    reports the number of rows read and the number of rows whose first field
    has the timestamp shape; the rows written are as many as the rows
    collected, never more than the second number, which is never more than
    the first; and they are as many as the second number exactly when no
    row with a timestamp has a voltage that fails the conversion. *)
Theorem row_counts :
  forall env filepath R P evs processed,
    try_block env filepath R P = (evs, Ok processed) ->
    exists df after table,
      read_csv env filepath = Ok df
      /\ evs = [PrintFiltered (List.length (rows df)) after;
                ToCsv (output_filepath filepath) None false table;
                PrintSaved (output_filepath filepath)]
      /\ after = List.length (filter (fun r => str_match time_format_regex (cell 0 r))
                                     (rows df))
      /\ List.length processed = List.length table
      /\ (List.length table <= after <= List.length (rows df))%nat
      /\ (List.length table = after
          <-> forall r, In r (rows df) ->
                        str_match time_format_regex (cell 0 r) = true ->
                        survives env r = true).
Proof.
  intros env filepath R P evs processed H.
  destruct (try_block_ok _ _ _ _ _ _ H) as (df & Hread & -> & ->).
  exists df, (List.length (filter timestamped (rows df))),
         (map (saved_row R) (cleaned env df)).
  split; [exact Hread|]. split; [reflexivity|]. split; [reflexivity|].
  rewrite !length_map, cleaned_survives, length_map.
  destruct (filter_and_length timestamped
              (fun r => complete (convert env COL_V_CH2 (convert env COL_V_CH1 r)))
              (rows df)) as [Hle Heq].
  split; [reflexivity|]. split; [exact Hle|].
  unfold survives at 1. rewrite Heq, forallb_forall.
  split.
  - intros A r Hr Ht. specialize (A r Hr). unfold survives.
    change (str_match time_format_regex (cell 0 r)) with (timestamped r) in Ht.
    rewrite Ht in *. exact A.
  - intros A r Hr. destruct (timestamped r) eqn:Ht; [|reflexivity].
    specialize (A r Hr Ht). unfold survives in A. rewrite Ht in A. exact A.
Qed.

Lemma row_counts_witness :
  let env := sample_env [] (fun _ => Ok odd_rows) in
  snd (try_block env (lit "20250723_1/10kohm_300Pa_hoden.csv") 10000 300)
  = Ok (map (processed_row 10000 300) (cleaned env odd_rows))
  /\ exists df after table,
       fst (try_block env (lit "20250723_1/10kohm_300Pa_hoden.csv") 10000 300)
       = [PrintFiltered (List.length (rows df)) after;
          ToCsv (output_filepath (lit "20250723_1/10kohm_300Pa_hoden.csv"))
                None false table;
          PrintSaved (output_filepath (lit "20250723_1/10kohm_300Pa_hoden.csv"))]
       /\ (List.length table <= after <= List.length (rows df))%nat.
Proof.
  intros env. split; [reflexivity|].
  destruct (row_counts env (lit "20250723_1/10kohm_300Pa_hoden.csv") 10000 300
              (fst (try_block env (lit "20250723_1/10kohm_300Pa_hoden.csv") 10000 300))
              (map (processed_row 10000 300) (cleaned env odd_rows)))
    as (df & after & table & _ & Hev & _ & _ & Hle & _); [reflexivity|].
  exists df, after, table. split; [exact Hev | exact Hle].
Defined.
